(** * sessionctx/variable/varsutil.go: system-variable access and validation

    A shallow embedding of the helpers of [varsutil.go] of package
    [variable], and the properties of them that the specification states.

    Go strings are byte sequences: they are [string]s whose characters are
    the bytes.  Machine integers are [Z] with the wrap-around written out.
    A Go result pair [(v, err)] is a pair whose second component is an
    [option]: [None] is the nil error. *)

From Stdlib Require Import ZArith Lia Bool List Ascii String DecimalString.
From Stdlib Require Import DecimalPos DecimalN DecimalZ.
From stdpp Require Import base option gmap strings.

Local Open Scope string_scope.
Local Open Scope Z_scope.

(** ** Machine integers *)

(** Conversion of an integer to [int64]: the two's complement wrap-around. *)
Definition int64 (z : Z) : Z := (z + 2 ^ 63) mod 2 ^ 64 - 2 ^ 63.

(** Conversion of an integer to [uint64]. *)
Definition uint64 (z : Z) : Z := z mod 2 ^ 64.

Definition inInt32 (z : Z) : Prop := - 2 ^ 31 <= z < 2 ^ 31.
Definition inInt64 (z : Z) : Prop := - 2 ^ 63 <= z < 2 ^ 63.

(** Go's [/] on integers truncates toward zero: it is [Z.quot]. *)
Definition goDiv (a b : Z) : Z := Z.quot a b.

(** [a << n] on [int64]. *)
Definition shl64 (a n : Z) : Z := int64 (Z.shiftl a n).

(** ** Package [strings] of the Go library *)

Definition byteOf (c : ascii) : Z := Z.of_N (N_of_ascii c).

(** The test of [EqualFold] on two bytes below [utf8.RuneSelf]: equal, or
    the smaller one is an upper-case letter and the larger one is its
    lower-case form. *)
Definition asciiFoldEq (sr tr : ascii) : bool :=
  let a := byteOf sr in
  let b := byteOf tr in
  (a <? 128) && (b <? 128) &&
  ((a =? b) ||
   (let lo := Z.min a b in
    let hi := Z.max a b in
    (65 <=? lo) && (lo <=? 90) && (hi =? lo + 32))).

Definition isFoldK (tr : ascii) : bool := (byteOf tr =? 75) || (byteOf tr =? 107).
Definition isFoldS (tr : ascii) : bool := (byteOf tr =? 83) || (byteOf tr =? 115).

(** [strings.EqualFold s t] for a [t] made of ASCII bytes, which is how
    this package calls it (the second argument is always a literal).
    Against an ASCII byte of [t] a character of [s] matches when it is the
    same letter up to ASCII case, or when it is one of the two characters
    outside ASCII whose simple case folding reaches an ASCII letter:
    U+017F (bytes C5 BF), which folds to S and s, and U+212A (bytes
    E2 84 AA), which folds to K and k. *)
Fixpoint EqualFold (s t : string) : bool :=
  match t with
  | EmptyString => match s with EmptyString => true | _ => false end
  | String tr t' =>
      match s with
      | EmptyString => false
      | String sr s' =>
          if asciiFoldEq sr tr then EqualFold s' t'
          else if (byteOf sr =? 197) && isFoldS tr then
            match s' with
            | String c1 s'' =>
                if byteOf c1 =? 191 then EqualFold s'' t' else false
            | EmptyString => false
            end
          else if (byteOf sr =? 226) && isFoldK tr then
            match s' with
            | String c1 (String c2 s'') =>
                if (byteOf c1 =? 132) && (byteOf c2 =? 170)
                then EqualFold s'' t' else false
            | _ => false
            end
          else false
      end
  end.

Definition lowerByte (c : ascii) : ascii :=
  let a := byteOf c in
  if (65 <=? a) && (a <=? 90) then ascii_of_N (Z.to_N (a + 32)) else c.

Definition upperByte (c : ascii) : ascii :=
  let a := byteOf c in
  if (97 <=? a) && (a <=? 122) then ascii_of_N (Z.to_N (a - 32)) else c.

Fixpoint mapBytes (f : ascii -> ascii) (s : string) : string :=
  match s with
  | EmptyString => EmptyString
  | String c s' => String (f c) (mapBytes f s')
  end.

Fixpoint isASCII (s : string) : bool :=
  match s with
  | EmptyString => true
  | String c s' => (byteOf c <? 128) && isASCII s'
  end.

(** [strings.ToLower]: a string of ASCII bytes is lower-cased byte by
    byte; any other string goes through the Unicode tables of the Go
    library, which are the parameter [unicodeLower]. *)
Definition ToLower (unicodeLower : string -> string) (s : string) : string :=
  if isASCII s then mapBytes lowerByte s else unicodeLower s.

(** The upper-case form of a string, byte by byte: the strings [s] with
    [upperASCII s = "ON"] are the spellings of ON in any casing. *)
Definition upperASCII (s : string) : string := mapBytes upperByte s.

(** ** Package [strconv] of the Go library *)

Inductive NumError : Set := ErrSyntax | ErrRange.

Definition IntSize : Z := 64.

Definition isDigit (c : ascii) : bool :=
  (48 <=? byteOf c) && (byteOf c <=? 57).

(** The loop of [strconv.ParseUint] in base 10: [n] is the value read so
    far and [maxVal] the largest value of the result type. *)
Fixpoint parseDigits (maxVal : Z) (n : Z) (s : string) : Z * option NumError :=
  match s with
  | EmptyString => (n, None)
  | String c s' =>
      if negb (isDigit c) then (0, Some ErrSyntax)
      else
        let d := byteOf c - 48 in
        if n >=? (2 ^ 64 - 1) / 10 + 1 then (maxVal, Some ErrRange)
        else
          let n1 := n * 10 + d in
          if (n1 >? 2 ^ 64 - 1) || (n1 >? maxVal) then (maxVal, Some ErrRange)
          else parseDigits maxVal n1 s'
  end.

(** [strconv.ParseUint(s, 10, bitSize)]. *)
Definition ParseUint (s : string) (bitSize : Z) : Z * option NumError :=
  match s with
  | EmptyString => (0, Some ErrSyntax)
  | _ =>
      let bits := if bitSize =? 0 then IntSize else bitSize in
      parseDigits (2 ^ bits - 1) 0 s
  end.

(** [strconv.ParseInt(s, 10, bitSize)]. *)
Definition ParseInt (s : string) (bitSize : Z) : Z * option NumError :=
  match s with
  | EmptyString => (0, Some ErrSyntax)
  | String c rest =>
      let neg := byteOf c =? 45 in
      let body := if (byteOf c =? 43) || neg then rest else s in
      let bits := if bitSize =? 0 then IntSize else bitSize in
      match ParseUint body bits with
      | (_, Some ErrSyntax) => (0, Some ErrSyntax)
      | (un, _) =>
          let cutoff := 2 ^ (bits - 1) in
          if negb neg && (un >=? cutoff) then (cutoff - 1, Some ErrRange)
          else if neg && (un >? cutoff) then (- cutoff, Some ErrRange)
          else (if neg then - un else un, None)
      end
  end.

(** [strconv.Atoi]: [ParseInt(s, 10, 0)] as an [int], which has [IntSize]
    bits (the fast path of the library for short inputs computes the same
    result). *)
Definition Atoi (s : string) : Z * option NumError := ParseInt s 0.

(** [fmt.Sprintf("%d", n)]. *)
Definition formatDecimal (n : Z) : string := NilZero.string_of_int (Z.to_int n).

(** ** Package [time] of the Go library *)

(** A wall-clock instant: seconds since the Unix epoch and the nanoseconds
    within the second. *)
Record Time : Set := mkTime { unixSec : Z; nsec : Z }.

Definition validTime (t : Time) : Prop := 0 <= nsec t < 1000000000.

(** The instant as an exact count of nanoseconds since the epoch. *)
Definition nanos (t : Time) : Z := unixSec t * 1000000000 + nsec t.

(** [t1.Before(t2)]. *)
Definition Before (t1 t2 : Time) : Prop := nanos t1 < nanos t2.

(** [t.UnixNano()], an [int64]. *)
Definition UnixNano (t : Time) : Z := int64 (nanos t).

(** [time.Millisecond], a duration in nanoseconds. *)
Definition Millisecond : Z := 1000000.

(** ** Timestamps *)

(** [epochShiftBits] is used to reserve logical part of the timestamp. *)
Definition epochShiftBits : Z := 18.

(** [GoTimeToTS] converts a Go time to uint64 timestamp. *)
Definition GoTimeToTS (t : Time) : Z :=
  let ts := shl64 (goDiv (UnixNano t) (int64 Millisecond)) epochShiftBits in
  uint64 ts.

(** ** Errors *)

(** The error codes this file raises; [CodeForeign] stands for the errors
    of other packages (a datum that has no string form, a failed global
    read, a failed rendering of the configuration). *)
Inductive ErrCode : Set :=
  | CodeUnknownSystemVar
  | CodeIncorrectScope
  | CodeWrongTypeForVar
  | CodeWrongValueForVar
  | CodeReadOnly
  | CodeTruncatedWrongValue
  | CodeUnknownTimeZone
  | CodeForeign.

(** A [terror.Error]: a code and the arguments of its message. *)
Record Error : Set := mkError { errCode : ErrCode; errArgs : list string }.

Definition UnknownSystemVar : Error := mkError CodeUnknownSystemVar [].
Definition ErrIncorrectScope : Error := mkError CodeIncorrectScope [].
Definition ErrWrongTypeForVar : Error := mkError CodeWrongTypeForVar [].
Definition ErrWrongValueForVar : Error := mkError CodeWrongValueForVar [].
Definition ErrReadOnly : Error := mkError CodeReadOnly [].
Definition ErrTruncatedWrongValue : Error := mkError CodeTruncatedWrongValue [].
Definition ErrUnknownTimeZone : Error := mkError CodeUnknownTimeZone [].

(** [e.GenByArgs(args...)]: the same error with the arguments filled in. *)
Definition GenByArgs (e : Error) (args : list string) : Error :=
  mkError (errCode e) args.

(** [errors.Trace] records the call site and keeps the error. *)
Definition Trace (err : option Error) : option Error := err.

(** [err != nil]. *)
Definition notNil {A : Type} (err : option A) : bool :=
  match err with Some _ => true | None => false end.

(** ** The catalog *)

(** Modelled from the spec: the scope flags are declared in sysvar.go,
    which is not among the sources; [varsutil.go] tests them as bit flags
    ([Scope & ScopeGlobal]), [ScopeNone] being the immutable constant with
    no bit set. *)
Definition ScopeNone : Z := 0.
Definition ScopeGlobal : Z := Z.shiftl 1 0.
Definition ScopeSession : Z := Z.shiftl 1 1.

(** [SysVar] is for system variable. *)
Record SysVar : Set := mkSysVar { Scope : Z; Name : string; Value : string }.

(** Modelled from the spec: the names of the system variables are string
    constants of sysvar.go and tidb_vars.go, which are not among the
    sources; the spec speaks of the variables by their role.  Each constant
    has the name of the MySQL or TiDB variable it stands for.  A Go switch
    does not compile with two equal constant cases, so the dispatch of
    [ValidateSetSystemVar] needs of them only that they differ. *)
Definition DefaultWeekFormat := "default_week_format".
Definition DelayKeyWrite := "delay_key_write".
Definition FlushTime := "flush_time".
Definition GroupConcatMaxLen := "group_concat_max_len".
Definition InteractiveTimeout := "interactive_timeout".
Definition MaxConnections := "max_connections".
Definition MaxSortLength := "max_sort_length".
Definition MaxSpRecursionDepth := "max_sp_recursion_depth".
Definition OldPasswords := "old_passwords".
Definition MaxUserConnections := "max_user_connections".
Definition SessionTrackGtids := "session_track_gtids".
Definition TimeZone := "time_zone".
Definition WarningCount := "warning_count".
Definition ErrorCount := "error_count".
Definition GeneralLog := "general_log".
Definition AvoidTemporalUpgrade := "avoid_temporal_upgrade".
Definition BigTables := "big_tables".
Definition CheckProxyUsers := "check_proxy_users".
Definition CoreFile := "core_file".
Definition EndMakersInJSON := "end_markers_in_json".
Definition SQLLogBin := "sql_log_bin".
Definition OfflineMode := "offline_mode".
Definition PseudoSlaveMode := "pseudo_slave_mode".
Definition LowPriorityUpdates := "low_priority_updates".
Definition SkipNameResolve := "skip_name_resolve".
Definition ForeignKeyChecks := "foreign_key_checks".
Definition SQLSafeUpdates := "sql_safe_updates".
Definition AutocommitVar := "autocommit".
Definition TiDBImportingData := "tidb_import_data".
Definition TiDBSkipUTF8Check := "tidb_skip_utf8_check".
Definition TiDBOptAggPushDown := "tidb_opt_agg_push_down".
Definition TiDBOptInSubqUnFolding := "tidb_opt_insubquery_unfold".
Definition TiDBEnableTablePartition := "tidb_enable_table_partition".
Definition TiDBBatchInsert := "tidb_batch_insert".
Definition TiDBDisableTxnAutoRetry := "tidb_disable_txn_auto_retry".
Definition TiDBEnableStreaming := "tidb_enable_streaming".
Definition TiDBBatchDelete := "tidb_batch_delete".
Definition TiDBIndexLookupConcurrency := "tidb_index_lookup_concurrency".
Definition TiDBIndexLookupJoinConcurrency := "tidb_index_lookup_join_concurrency".
Definition TiDBIndexJoinBatchSize := "tidb_index_join_batch_size".
Definition TiDBIndexLookupSize := "tidb_index_lookup_size".
Definition TiDBHashJoinConcurrency := "tidb_hash_join_concurrency".
Definition TiDBHashAggPartialConcurrency := "tidb_hashagg_partial_concurrency".
Definition TiDBHashAggFinalConcurrency := "tidb_hashagg_final_concurrency".
Definition TiDBDistSQLScanConcurrency := "tidb_distsql_scan_concurrency".
Definition TiDBIndexSerialScanConcurrency := "tidb_index_serial_scan_concurrency".
Definition TiDBDDLReorgWorkerCount := "tidb_ddl_reorg_worker_cnt".
Definition TiDBBackoffLockFast := "tidb_backoff_lock_fast".
Definition TiDBMaxChunkSize := "tidb_max_chunk_size".
Definition TiDBDMLBatchSize := "tidb_dml_batch_size".
Definition TiDBOptimizerSelectivityLevel := "tidb_optimizer_selectivity_level".
Definition TiDBGeneralLog := "tidb_general_log".
Definition TiDBProjectionConcurrency := "tidb_projection_concurrency".
Definition TIDBMemQuotaQuery := "tidb_mem_quota_query".
Definition TIDBMemQuotaHashJoin := "tidb_mem_quota_hashjoin".
Definition TIDBMemQuotaMergeJoin := "tidb_mem_quota_mergejoin".
Definition TIDBMemQuotaSort := "tidb_mem_quota_sort".
Definition TIDBMemQuotaTopn := "tidb_mem_quota_topn".
Definition TIDBMemQuotaIndexLookupReader := "tidb_mem_quota_indexlookupreader".
Definition TIDBMemQuotaIndexLookupJoin := "tidb_mem_quota_indexlookupjoin".
Definition TIDBMemQuotaNestedLoopApply := "tidb_mem_quota_nestedloopapply".
Definition TiDBRetryLimit := "tidb_retry_limit".
Definition TiDBCurrentTS := "tidb_current_ts".
Definition TiDBConfig := "tidb_config".

(** Equality of Go strings. *)
Infix "=s?" := String.eqb (at level 70, no associativity).

(** A [case] of a switch on a string with several constants. *)
Definition oneOf (name : string) (cases : list string) : bool :=
  existsb (String.eqb name) cases.

(** ** The session *)

(** The part of [stmtctx.StatementContext] this file writes: the
    warnings of the statement, oldest first. *)
Record StatementContext : Set := mkStmtCtx { warnings : list Error }.

(** The part of the transaction context this file reads. *)
Record TransactionContext : Set := mkTxnCtx { StartTS : Z }.

(** [GlobalVarsAccessor] is the interface for accessing global scope
    system and status variables; the global store is behind it. *)
Record GlobalVarsAccessor : Type := mkAccessor {
  GetGlobalSysVar : string -> string * option Error
}.

(** [SessionVars], as far as this file reads and writes it: [systems] is
    the session overlay. *)
Record SessionVars : Type := mkSessionVars {
  systems : gmap string string;
  StmtCtx : StatementContext;
  TxnCtx : TransactionContext;
  SnapshotTS : Z;
  globalVars : GlobalVarsAccessor
}.

Definition withSystems (s : SessionVars) (m : gmap string string) : SessionVars :=
  mkSessionVars m (StmtCtx s) (TxnCtx s) (SnapshotTS s) (globalVars s).

Definition withStmtCtx (s : SessionVars) (sc : StatementContext) : SessionVars :=
  mkSessionVars (systems s) sc (TxnCtx s) (SnapshotTS s) (globalVars s).

(** Modelled from the spec: [StatementContext.AppendWarning] is a method
    of package stmtctx, which is not among the sources; per the spec a
    warning is appended to the session's warning list.  The list is the
    record of the calls, in order. *)
Definition AppendWarning (s : SessionVars) (w : Error) : SessionVars :=
  withStmtCtx s (mkStmtCtx (warnings (StmtCtx s) ++ [w])).

(** The state of the process that the session variables read: the
    general-log flag, the DDL reorganisation worker counter, and the
    indented JSON rendering of the global configuration (a result pair,
    as the rendering can fail). *)
Record Process : Set := mkProcess {
  ProcessGeneralLog : Z;
  ddlReorgWorkerCounter : Z;
  configJSON : string * option Error
}.

(** ** The DDL reorganisation worker counter *)

Section DDLReorgWorker.

(** The compile-time maximum [maxDDLReorgWorkerCount], an [int32]
    declared in tidb_vars.go, which is not among the sources. *)
Variable maxDDLReorgWorkerCount : Z.

(** [SetDDLReorgWorkerCounter] sets ddlReorgWorkerCounter count.
    Max worker count is maxDDLReorgWorkerCount. *)
Definition SetDDLReorgWorkerCounter (p : Process) (cnt : Z) : Process :=
  let cnt := if cnt >? maxDDLReorgWorkerCount then maxDDLReorgWorkerCount else cnt in
  mkProcess (ProcessGeneralLog p) cnt (configJSON p).

(** [GetDDLReorgWorkerCounter] gets ddlReorgWorkerCounter. *)
Definition GetDDLReorgWorkerCounter (p : Process) : Z :=
  ddlReorgWorkerCounter p.

End DDLReorgWorker.

(** ** Reading and writing system variables *)

Section Validator.

(** The catalog [SysVars], a map from the lower-case name of a variable
    to its descriptor; it is filled in sysvar.go, which is not among the
    sources. *)
Variable SysVars : gmap string SysVar.

(** The Unicode tables behind [strings.ToLower]. *)
Variable unicodeLower : string -> string.

(** Modelled from the spec: [GetSysVar] is a function of sysvar.go, which
    is not among the sources; per the spec a name is normalized to lower
    case before it is looked up in the catalog. *)
Definition GetSysVar (name : string) : option SysVar :=
  SysVars !! ToLower unicodeLower name.

(** [vars.StmtCtx.AppendWarning(ErrTruncatedWrongValue.GenByArgs(name,
    value))] followed by [return ret, nil]. *)
Definition truncated (vars : SessionVars) (name value ret : string)
  : SessionVars * (string * option Error) :=
  (AppendWarning vars (GenByArgs ErrTruncatedWrongValue [name; value]), (ret, None)).

(** [ValidateSetSystemVar] checks if system variable satisfies specific
    restriction. *)
Definition ValidateSetSystemVar (vars : SessionVars) (name value : string)
  : SessionVars * (string * option Error) :=
  if EqualFold value "DEFAULT" then
    match GetSysVar name with
    | Some val => (vars, (Value val, None))
    | None => (vars, (value, Some (GenByArgs UnknownSystemVar [name])))
    end
  else if name =s? DefaultWeekFormat then
    match Atoi value with
    | (_, Some _) => (vars, (value, Some (GenByArgs ErrWrongTypeForVar [name])))
    | (val, None) =>
        if val <? 0 then truncated vars name value "0"
        else if val >? 7 then truncated vars name value "7"
        else (vars, (value, None))
    end
  else if name =s? DelayKeyWrite then
    if EqualFold value "ON" || (value =s? "1") then (vars, ("ON", None))
    else if EqualFold value "OFF" || (value =s? "0") then (vars, ("OFF", None))
    else if EqualFold value "ALL" || (value =s? "2") then (vars, ("ALL", None))
    else (vars, (value, Some (GenByArgs ErrWrongValueForVar [name; value])))
  else if name =s? FlushTime then
    match Atoi value with
    | (_, Some _) => (vars, (value, Some (GenByArgs ErrWrongTypeForVar [name])))
    | (val, None) =>
        if val <? 0 then truncated vars name value "0"
        else (vars, (value, None))
    end
  else if name =s? GroupConcatMaxLen then
    match ParseUint value 64 with
    | (_, Some _) => (vars, (value, Some (GenByArgs ErrWrongTypeForVar [name])))
    | (val, None) =>
        if val <? 4 then truncated vars name value "4"
        else if val >? 18446744073709551615 then
          truncated vars name value "18446744073709551615"
        else (vars, (value, None))
    end
  else if name =s? InteractiveTimeout then
    match Atoi value with
    | (_, Some _) => (vars, (value, Some (GenByArgs ErrWrongTypeForVar [name])))
    | (val, None) =>
        if val <? 1 then truncated vars name value "1"
        else (vars, (value, None))
    end
  else if name =s? MaxConnections then
    match Atoi value with
    | (_, Some _) => (vars, (value, Some (GenByArgs ErrWrongTypeForVar [name])))
    | (val, None) =>
        if val <? 1 then truncated vars name value "1"
        else if val >? 100000 then truncated vars name value "100000"
        else (vars, (value, None))
    end
  else if name =s? MaxSortLength then
    match ParseInt value 64 with
    | (_, Some _) => (vars, (value, Some (GenByArgs ErrWrongTypeForVar [name])))
    | (val, None) =>
        if val <? 4 then truncated vars name value "4"
        else if val >? 8388608 then truncated vars name value "8388608"
        else (vars, (value, None))
    end
  else if name =s? MaxSpRecursionDepth then
    match ParseInt value 64 with
    | (_, Some _) => (vars, (value, Some (GenByArgs ErrWrongTypeForVar [name])))
    | (val, None) =>
        if val <? 0 then truncated vars name value "0"
        else if val >? 255 then truncated vars name value "255"
        else (vars, (value, None))
    end
  else if name =s? OldPasswords then
    match Atoi value with
    | (_, Some _) => (vars, (value, Some (GenByArgs ErrWrongTypeForVar [name])))
    | (val, None) =>
        if val <? 0 then truncated vars name value "0"
        else if val >? 2 then truncated vars name value "2"
        else (vars, (value, None))
    end
  else if name =s? MaxUserConnections then
    match ParseUint value 64 with
    | (_, Some _) => (vars, (value, Some (GenByArgs ErrWrongTypeForVar [name])))
    | (val, None) =>
        if val <? 0 then truncated vars name value "0"
        else if val >? 4294967295 then truncated vars name value "4294967295"
        else (vars, (value, None))
    end
  else if name =s? SessionTrackGtids then
    if EqualFold value "OFF" || (value =s? "0") then (vars, ("OFF", None))
    else if EqualFold value "OWN_GTID" || (value =s? "1") then (vars, ("OWN_GTID", None))
    else if EqualFold value "ALL_GTIDS" || (value =s? "2") then (vars, ("ALL_GTIDS", None))
    else (vars, (value, Some (GenByArgs ErrWrongValueForVar [name; value])))
  else if name =s? TimeZone then
    if EqualFold value "SYSTEM" then (vars, ("SYSTEM", None))
    else (vars, (value, None))
  else if oneOf name [WarningCount; ErrorCount] then
    (vars, (value, Some (GenByArgs ErrReadOnly [name])))
  else if oneOf name
            [GeneralLog; AvoidTemporalUpgrade; BigTables; CheckProxyUsers;
             CoreFile; EndMakersInJSON; SQLLogBin; OfflineMode;
             PseudoSlaveMode; LowPriorityUpdates; SkipNameResolve;
             ForeignKeyChecks; SQLSafeUpdates] then
    if EqualFold value "ON" || (value =s? "1") then (vars, ("1", None))
    else if EqualFold value "OFF" || (value =s? "0") then (vars, ("0", None))
    else (vars, (value, Some (GenByArgs ErrWrongValueForVar [name; value])))
  else if oneOf name
            [AutocommitVar; TiDBImportingData; TiDBSkipUTF8Check;
             TiDBOptAggPushDown; TiDBOptInSubqUnFolding;
             TiDBEnableTablePartition; TiDBBatchInsert;
             TiDBDisableTxnAutoRetry; TiDBEnableStreaming; TiDBBatchDelete] then
    if EqualFold value "ON" || (value =s? "1") || EqualFold value "OFF" || (value =s? "0")
    then (vars, (value, None))
    else (vars, (value, Some (GenByArgs ErrWrongValueForVar [name; value])))
  else if oneOf name
            [TiDBIndexLookupConcurrency; TiDBIndexLookupJoinConcurrency;
             TiDBIndexJoinBatchSize; TiDBIndexLookupSize;
             TiDBHashJoinConcurrency; TiDBHashAggPartialConcurrency;
             TiDBHashAggFinalConcurrency; TiDBDistSQLScanConcurrency;
             TiDBIndexSerialScanConcurrency; TiDBDDLReorgWorkerCount;
             TiDBBackoffLockFast; TiDBMaxChunkSize; TiDBDMLBatchSize;
             TiDBOptimizerSelectivityLevel; TiDBGeneralLog] then
    match Atoi value with
    | (_, Some _) => (vars, (value, Some (GenByArgs ErrWrongTypeForVar [name])))
    | (v, None) =>
        if v <=? 0
        then (vars, (value, Some (GenByArgs ErrWrongValueForVar [name; value])))
        else (vars, (value, None))
    end
  else if oneOf name
            [TiDBProjectionConcurrency; TIDBMemQuotaQuery; TIDBMemQuotaHashJoin;
             TIDBMemQuotaMergeJoin; TIDBMemQuotaSort; TIDBMemQuotaTopn;
             TIDBMemQuotaIndexLookupReader; TIDBMemQuotaIndexLookupJoin;
             TIDBMemQuotaNestedLoopApply; TiDBRetryLimit] then
    match ParseInt value 64 with
    | (_, Some _) => (vars, (value, Some (GenByArgs ErrWrongValueForVar [name])))
    | (_, None) => (vars, (value, None))
    end
  else (vars, (value, None)).

(** [ValidateGetSystemVar] checks if system variable exists and validates
    its scope when get system variable. *)
Definition ValidateGetSystemVar (name : string) (isGlobal : bool) : option Error :=
  match SysVars !! name with
  | None => Some (GenByArgs UnknownSystemVar [name])
  | Some sysVar =>
      if (Scope sysVar =? ScopeGlobal) || (Scope sysVar =? ScopeNone) then
        if negb isGlobal
        then Some (GenByArgs ErrIncorrectScope [name; "GLOBAL"])
        else None
      else if Scope sysVar =? ScopeSession then
        if isGlobal
        then Some (GenByArgs ErrIncorrectScope [name; "SESSION"])
        else None
      else None
  end.

End Validator.

Section Orchestration.

Variable SysVars : gmap string SysVar.
Variable unicodeLower : string -> string.

(** [types.Datum], of package types, which is not among the sources:
    this file only asks a datum whether it is null and for its string
    form, which some kinds of datum do not have. *)
Variable Datum : Type.
Variable IsNull : Datum -> bool.
Variable ToString : Datum -> string * option Error.

(** [SessionVars.SetSystemVar], a method declared in session.go, which is
    not among the sources.  Nothing is assumed of it. *)
Variable SetSystemVar : SessionVars -> string -> string -> SessionVars * option Error.

(** Modelled from the spec: [SessionVars.deleteSystemVar] is a method
    declared in session.go, which is not among the sources; per the spec
    a null input value deletes the session overlay entry for that name,
    with no validation and no global effect. *)
Definition deleteSystemVar (vars : SessionVars) (name : string)
  : SessionVars * option Error :=
  (withSystems vars (delete name (systems vars)), None).

(** [GetSessionOnlySysVars] get the default value defined in code for
    session only variable.  The return bool value indicates whether it's a
    session only variable. *)
Definition GetSessionOnlySysVars (p : Process) (s : SessionVars) (key : string)
  : string * bool * option Error :=
  match SysVars !! key with
  | None => ("", false, Some (GenByArgs UnknownSystemVar [key]))
  | Some sysVar =>
      (* For virtual system variables: *)
      if Name sysVar =s? TiDBCurrentTS then
        (formatDecimal (StartTS (TxnCtx s)), true, None)
      else if Name sysVar =s? TiDBGeneralLog then
        (formatDecimal (ProcessGeneralLog p), true, None)
      else if Name sysVar =s? TiDBConfig then
        match configJSON p with
        | (_, Some err) => ("", false, Trace (Some err))
        | (j, None) => (j, true, None)
        end
      else
        match systems s !! key with
        | Some sVal => (sVal, true, None)
        | None =>
            if Z.land (Scope sysVar) ScopeGlobal =? 0 then
              (* None-Global variable can use pre-defined default value. *)
              (Value sysVar, true, None)
            else ("", false, None)
        end
  end.

(** [GetSessionSystemVar] gets a system variable.  If it is a session
    only variable, use the default value defined in code.  Returns error
    if there is no such variable. *)
Definition GetSessionSystemVar (p : Process) (s : SessionVars) (key : string)
  : SessionVars * (string * option Error) :=
  let key := ToLower unicodeLower key in
  match GetSessionOnlySysVars p s key with
  | (gVal, ok, err) =>
      if notNil err || ok then (s, (gVal, Trace err))
      else
        match GetGlobalSysVar (globalVars s) key with
        | (_, Some err) => (s, ("", Trace (Some err)))
        | (gVal, None) => (withSystems s (<[key := gVal]> (systems s)), (gVal, None))
        end
  end.

(** [GetScopeNoneSystemVar] checks the validation of [key], and return
    the default value if its scope is [ScopeNone]. *)
Definition GetScopeNoneSystemVar (key : string) : string * bool * option Error :=
  match SysVars !! key with
  | None => ("", false, Some (GenByArgs UnknownSystemVar [key]))
  | Some sysVar =>
      if Scope sysVar =? ScopeNone then (Value sysVar, true, None)
      else ("", false, None)
  end.

(** [GetGlobalSystemVar] gets a global system variable. *)
Definition GetGlobalSystemVar (s : SessionVars) (key : string)
  : string * option Error :=
  let key := ToLower unicodeLower key in
  match GetScopeNoneSystemVar key with
  | (gVal, ok, err) =>
      if notNil err || ok then (gVal, Trace err)
      else
        match GetGlobalSysVar (globalVars s) key with
        | (_, Some err) => ("", Trace (Some err))
        | (gVal, None) => (gVal, None)
        end
  end.

(** [SetSessionSystemVar] sets system variable and updates SessionVars
    states. *)
Definition SetSessionSystemVar (vars : SessionVars) (name : string) (value : Datum)
  : SessionVars * option Error :=
  let name := ToLower unicodeLower name in
  match SysVars !! name with
  | None => (vars, Some UnknownSystemVar)
  | Some sysVar =>
      if IsNull value then deleteSystemVar vars name
      else
        match ToString value with
        | (_, Some err) => (vars, Trace (Some err))
        | (sVal, None) =>
            match ValidateSetSystemVar SysVars unicodeLower vars name sVal with
            | (vars, (_, Some err)) => (vars, Trace (Some err))
            | (vars, (sVal, None)) => SetSystemVar vars name sVal
            end
        end
  end.

End Orchestration.

(** ** Option helpers *)

(** [TiDBOptOn] could be used for all tidb session variable options, we
    use "ON"/1 to turn on those options. *)
Definition TiDBOptOn (opt : string) : bool :=
  EqualFold opt "ON" || (opt =s? "1").

(** [tidbOptPositiveInt32]: the option as a positive [int], or the
    default. *)
Definition tidbOptPositiveInt32 (opt : string) (defaultVal : Z) : Z :=
  match Atoi opt with
  | (val, err) => if notNil err || (val <=? 0) then defaultVal else val
  end.

(** [tidbOptInt64]: the option as an [int64], or the default. *)
Definition tidbOptInt64 (opt : string) (defaultVal : Z) : Z :=
  match ParseInt opt 64 with
  | (_, Some _) => defaultVal
  | (val, None) => val
  end.

(** ** Time zones and snapshots *)

(** A [*time.Location]: the zone of the process ([time.Local]), a zone of the zone
    database, or a zone at a fixed offset from UTC, in seconds. *)
Inductive Location : Set :=
  | TimeLocal
  | Zone (name : string)
  | FixedZone (name : string) (offset : Z).

(** [time.Second], a duration in nanoseconds. *)
Definition Second : Z := 1000000000.

(** [strings.HasPrefix]. *)
Definition HasPrefix (s p : string) : bool := String.prefix p s.

(** [s[1:]] of a string that is not empty. *)
Definition dropFirst (s : string) : string :=
  match s with
  | EmptyString => EmptyString
  | String _ s' => s'
  end.

(** [s[0] == c] of a string that is not empty. *)
Definition firstIs (s : string) (c : Z) : bool :=
  match s with
  | EmptyString => false
  | String b _ => byteOf b =? c
  end.

(** [withSnapshotTS s ts] is [s] after [s.SnapshotTS = ts]. *)
Definition withSnapshotTS (s : SessionVars) (ts : Z) : SessionVars :=
  mkSessionVars (systems s) (StmtCtx s) (TxnCtx s) ts (globalVars s).

Section TimeHelpers.

(** [time.LoadLocation], of the Go library: the zone of a name of the zone
    database, if there is one. *)
Variable LoadLocation : string -> option Location.

(** [types.ParseDuration (str, fsp)], of package types, which is not
    among the sources: the duration in nanoseconds, if the string is
    one. *)
Variable ParseDuration : string -> Z -> option Z.

(** [types.ParseTime (sc, str, mysql.TypeTimestamp, types.MaxFsp)], of
    package types, which is not among the sources: it reads a timestamp,
    and may record warnings in the statement context it is given. *)
Variable MysqlTime : Type.
Variable ParseTime :
  StatementContext -> string -> StatementContext * (MysqlTime * option Error).

(** [t.Time.GoTime (time.Local)], of package types. *)
Variable GoTime : MysqlTime -> Time * option Error.

Definition parseTimeZone (s : string) : option Location * option Error :=
  if EqualFold s "SYSTEM" then
    (* TODO: Support global time_zone variable, it should be set to
       global time_zone value. *)
    (Some TimeLocal, None)
  else
    match LoadLocation s with
    | Some loc => (Some loc, None)
    | None =>
        (* The value can be given as a string indicating an offset from
           UTC, such as '+10:00' or '-6:00'. *)
        if HasPrefix s "+" || HasPrefix s "-" then
          match ParseDuration (dropFirst s) 0 with
          | Some d =>
              let ofst := int64 (goDiv d Second) in
              let ofst := if firstIs s 45 then int64 (- ofst) else ofst in
              (Some (FixedZone "UTC" ofst), None)
          | None => (None, Some (GenByArgs ErrUnknownTimeZone [s]))
          end
        else (None, Some (GenByArgs ErrUnknownTimeZone [s]))
    end.

Definition setSnapshotTS (s : SessionVars) (sVal : string)
  : SessionVars * option Error :=
  if sVal =s? "" then (withSnapshotTS s 0, None)
  else
    match ParseUint sVal 64 with
    | (tso, None) => (withSnapshotTS s tso, None)
    | (_, Some _) =>
        match ParseTime (StmtCtx s) sVal with
        | (sc, (_, Some err)) => (withStmtCtx s sc, Trace (Some err))
        | (sc, (t, None)) =>
            (* TODO: Consider time_zone variable. *)
            match GoTime t with
            | (t1, err) =>
                (withSnapshotTS (withStmtCtx s sc) (GoTimeToTS t1), Trace err)
            end
        end
    end.

End TimeHelpers.

(** ** A small instance to run the functions on *)

(** Modelled from the spec: a catalog in the manner of the one that
    sysvar.go fills (it is not among the sources), with variables of each
    scope, the two read-only counters and a virtual variable. *)
Definition exampleSysVars : gmap string SysVar :=
  list_to_map
    [ (DefaultWeekFormat, mkSysVar (Z.lor ScopeGlobal ScopeSession) DefaultWeekFormat "0");
      (DelayKeyWrite, mkSysVar ScopeGlobal DelayKeyWrite "ON");
      (GroupConcatMaxLen, mkSysVar (Z.lor ScopeGlobal ScopeSession) GroupConcatMaxLen "1024");
      (MaxConnections, mkSysVar ScopeGlobal MaxConnections "151");
      (WarningCount, mkSysVar ScopeSession WarningCount "0");
      (ErrorCount, mkSysVar ScopeSession ErrorCount "0");
      (TiDBCurrentTS, mkSysVar ScopeSession TiDBCurrentTS "0");
      ("port", mkSysVar ScopeNone "port" "4000") ].

(** Strings outside ASCII do not occur in the examples. *)
Definition exampleUnicodeLower (s : string) : string := s.

(** A datum is null, a string, or of a kind with no string form. *)
Inductive exampleDatum : Set :=
  | DatumNull
  | DatumString (s : string)
  | DatumInterface.

Definition exampleIsNull (d : exampleDatum) : bool :=
  match d with DatumNull => true | _ => false end.

Definition exampleToString (d : exampleDatum) : string * option Error :=
  match d with
  | DatumNull => ("", None)
  | DatumString s => (s, None)
  | DatumInterface => ("", Some (mkError CodeForeign ["cannot convert to string"]))
  end.

(** Modelled from the spec: [SessionVars.SetSystemVar] is a method
    declared in session.go, which is not among the sources; per the spec
    a validated value is written into the session overlay only. *)
Definition exampleSetSystemVar (vars : SessionVars) (name val : string)
  : SessionVars * option Error :=
  (withSystems vars (<[name := val]> (systems vars)), None).

(** A global store held as a map; a read of a missing name fails. *)
Definition storeAccessor (g : gmap string string) : GlobalVarsAccessor :=
  mkAccessor (fun key =>
    match g !! key with
    | Some v => (v, None)
    | None => ("", Some (mkError CodeForeign [key]))
    end).

Definition exampleStore : gmap string string :=
  list_to_map [ (DefaultWeekFormat, "3"); (MaxConnections, "200") ].

(** A session in a transaction started at timestamp 5, whose overlay
    holds a cached week format. *)
Definition exampleVars : SessionVars :=
  mkSessionVars (list_to_map [ (DefaultWeekFormat, "2"); (TiDBCurrentTS, "1") ])
                (mkStmtCtx []) (mkTxnCtx 5) 0 (storeAccessor exampleStore).

Definition exampleProcess : Process := mkProcess 0 16 ("{}", None).

(** A zone database with two names, durations of two spellings, and a
    timestamp parser that knows one instant. *)
Definition exampleLoadLocation (s : string) : option Location :=
  if s =s? "UTC" then Some (Zone "UTC")
  else if s =s? "Asia/Shanghai" then Some (Zone "Asia/Shanghai")
  else None.

Definition exampleParseDuration (s : string) (fsp : Z) : option Z :=
  if s =s? "10:00" then Some (36000 * Second)
  else if s =s? "6:30" then Some (23400 * Second)
  else None.

Definition exampleParseTime (sc : StatementContext) (s : string)
  : StatementContext * (Time * option Error) :=
  if s =s? "2018-01-01 00:00:00" then (sc, (mkTime 1514764800 0, None))
  else (sc, (mkTime 0 0, Some (mkError CodeForeign [s]))).

Definition exampleGoTime (t : Time) : Time * option Error := (t, None).

(** ** Vocabulary of the statements *)

(** The upper-case ASCII letters other than K and S: against them
    [EqualFold] is equality up to ASCII case. *)
Definition plainUpperByte (c : ascii) : bool :=
  (65 <=? byteOf c) && (byteOf c <=? 90) &&
  negb (byteOf c =? 75) && negb (byteOf c =? 83).

Fixpoint plainUpper (t : string) : bool :=
  match t with
  | EmptyString => true
  | String c t' => plainUpperByte c && plainUpper t'
  end.

(** The session after one truncation warning for [name] and [value]. *)
Definition warned (vars : SessionVars) (name value : string) : SessionVars :=
  mkSessionVars (systems vars)
    (mkStmtCtx (warnings (StmtCtx vars) ++
                [mkError CodeTruncatedWrongValue [name; value]]))
    (TxnCtx vars) (SnapshotTS vars) (globalVars vars).

(** A hard failure of [SetSessionSystemVar] with the error [err]: the
    lookup of the lower-cased name in the catalog fails, or the value has
    no string form, or the validation of its string form fails. *)
Inductive HardFailure (SysVars : gmap string SysVar)
    (unicodeLower : string -> string) {Datum : Type} (IsNull : Datum -> bool)
    (ToString : Datum -> string * option Error)
    (vars : SessionVars) (name : string) (value : Datum) : Error -> Prop :=
  | lookup_fails :
      SysVars !! ToLower unicodeLower name = None ->
      HardFailure SysVars unicodeLower IsNull ToString vars name value
        UnknownSystemVar
  | conversion_fails (sysVar : SysVar) (sVal : string) (err : Error) :
      SysVars !! ToLower unicodeLower name = Some sysVar ->
      IsNull value = false ->
      ToString value = (sVal, Some err) ->
      HardFailure SysVars unicodeLower IsNull ToString vars name value err
  | validation_fails (sysVar : SysVar) (sVal ret : string)
      (vars' : SessionVars) (err : Error) :
      SysVars !! ToLower unicodeLower name = Some sysVar ->
      IsNull value = false ->
      ToString value = (sVal, None) ->
      ValidateSetSystemVar SysVars unicodeLower vars
        (ToLower unicodeLower name) sVal = (vars', (ret, Some err)) ->
      HardFailure SysVars unicodeLower IsNull ToString vars name value err.

(** What a validation can do: fail with one of four codes and leave the
    session as it is, or succeed and leave the session as it is but for
    one truncation warning at most. *)
Definition validateOutcome (vars : SessionVars) (name value : string)
    (r : SessionVars * (string * option Error)) : Prop :=
  match snd (snd r) with
  | Some err =>
      fst r = vars /\
      In (errCode err)
         [CodeUnknownSystemVar; CodeWrongTypeForVar; CodeWrongValueForVar;
          CodeReadOnly]
  | None => fst r = vars \/ fst r = warned vars name value
  end.

(** The virtual variables, whose value is computed on each read. *)
Definition isVirtual (sysVar : SysVar) : bool :=
  oneOf (Name sysVar) [TiDBCurrentTS; TiDBGeneralLog; TiDBConfig].

(** The default/global path of a read, in the words of the spec: a
    variable whose scope excludes global has the default of the catalog;
    any other is read through the accessor, and the value read is cached
    in the overlay. *)
Definition defaultOrGlobal (sysVar : SysVar) (s : SessionVars) (key : string)
  : SessionVars * (string * option Error) :=
  if Z.land (Scope sysVar) ScopeGlobal =? 0 then (s, (Value sysVar, None))
  else
    match GetGlobalSysVar (globalVars s) key with
    | (_, Some err) => (s, ("", Some err))
    | (gVal, None) => (withSystems s (<[key := gVal]> (systems s)), (gVal, None))
    end.

(** The number that a string of decimal digits denotes, read from the
    left: [acc] is the number read so far. *)
Fixpoint digitsAcc (d : Decimal.uint) (acc : Z) : Z :=
  match d with
  | Decimal.Nil => acc
  | Decimal.D0 l => digitsAcc l (10 * acc)
  | Decimal.D1 l => digitsAcc l (10 * acc + 1)
  | Decimal.D2 l => digitsAcc l (10 * acc + 2)
  | Decimal.D3 l => digitsAcc l (10 * acc + 3)
  | Decimal.D4 l => digitsAcc l (10 * acc + 4)
  | Decimal.D5 l => digitsAcc l (10 * acc + 5)
  | Decimal.D6 l => digitsAcc l (10 * acc + 6)
  | Decimal.D7 l => digitsAcc l (10 * acc + 7)
  | Decimal.D8 l => digitsAcc l (10 * acc + 8)
  | Decimal.D9 l => digitsAcc l (10 * acc + 9)
  end.

(** The bounded variables: whether the variable is read as an unsigned
    number, and the bounds that the code enforces on it (a variable that
    the code bounds on one side only has the largest [int] as the other
    bound). *)
Definition clampBounds : list (string * (bool * (Z * Z))) :=
  [ (DefaultWeekFormat, (false, (0, 7)));
    (FlushTime, (false, (0, 2 ^ 63 - 1)));
    (GroupConcatMaxLen, (true, (4, 2 ^ 64 - 1)));
    (InteractiveTimeout, (false, (1, 2 ^ 63 - 1)));
    (MaxConnections, (false, (1, 100000)));
    (MaxSortLength, (false, (4, 8388608)));
    (MaxSpRecursionDepth, (false, (0, 255)));
    (OldPasswords, (false, (0, 2)));
    (MaxUserConnections, (true, (0, 4294967295))) ].

(** The number a bounded variable is read as. *)
Definition parseAs (unsigned : bool) (value : string) : Z * option NumError :=
  if unsigned then ParseUint value 64 else ParseInt value 64.

(** The clamp-and-warn rule, in the words of the spec: a value that does
    not parse fails with WrongTypeForVar; one out of range is clamped to
    the nearest bound, with a TruncatedWrongValue warning; one in range is
    returned as it is. *)
Definition clampAndWarn (unsigned : bool) (lo hi : Z)
    (vars : SessionVars) (name value : string)
  : SessionVars * (string * option Error) :=
  match parseAs unsigned value with
  | (_, Some _) => (vars, (value, Some (GenByArgs ErrWrongTypeForVar [name])))
  | (v, None) =>
      if v <? lo then (warned vars name value, (formatDecimal lo, None))
      else if v >? hi then (warned vars name value, (formatDecimal hi, None))
      else (vars, (value, None))
  end.

(** The variables with a rule of their own in [ValidateSetSystemVar]. *)
Definition validatedNames : list string :=
  [ DefaultWeekFormat; DelayKeyWrite; FlushTime; GroupConcatMaxLen;
    InteractiveTimeout; MaxConnections; MaxSortLength; MaxSpRecursionDepth;
    OldPasswords; MaxUserConnections; SessionTrackGtids; TimeZone;
    WarningCount; ErrorCount;
    GeneralLog; AvoidTemporalUpgrade; BigTables; CheckProxyUsers; CoreFile;
    EndMakersInJSON; SQLLogBin; OfflineMode; PseudoSlaveMode;
    LowPriorityUpdates; SkipNameResolve; ForeignKeyChecks; SQLSafeUpdates;
    AutocommitVar; TiDBImportingData; TiDBSkipUTF8Check; TiDBOptAggPushDown;
    TiDBOptInSubqUnFolding; TiDBEnableTablePartition; TiDBBatchInsert;
    TiDBDisableTxnAutoRetry; TiDBEnableStreaming; TiDBBatchDelete;
    TiDBIndexLookupConcurrency; TiDBIndexLookupJoinConcurrency;
    TiDBIndexJoinBatchSize; TiDBIndexLookupSize; TiDBHashJoinConcurrency;
    TiDBHashAggPartialConcurrency; TiDBHashAggFinalConcurrency;
    TiDBDistSQLScanConcurrency; TiDBIndexSerialScanConcurrency;
    TiDBDDLReorgWorkerCount; TiDBBackoffLockFast; TiDBMaxChunkSize;
    TiDBDMLBatchSize; TiDBOptimizerSelectivityLevel; TiDBGeneralLog;
    TiDBProjectionConcurrency; TIDBMemQuotaQuery; TIDBMemQuotaHashJoin;
    TIDBMemQuotaMergeJoin; TIDBMemQuotaSort; TIDBMemQuotaTopn;
    TIDBMemQuotaIndexLookupReader; TIDBMemQuotaIndexLookupJoin;
    TIDBMemQuotaNestedLoopApply; TiDBRetryLimit ].

(** The families of variables that share a rule. *)
Definition strictBooleans : list string :=
  [ GeneralLog; AvoidTemporalUpgrade; BigTables; CheckProxyUsers; CoreFile;
    EndMakersInJSON; SQLLogBin; OfflineMode; PseudoSlaveMode;
    LowPriorityUpdates; SkipNameResolve; ForeignKeyChecks; SQLSafeUpdates ].

Definition looseBooleans : list string :=
  [ AutocommitVar; TiDBImportingData; TiDBSkipUTF8Check; TiDBOptAggPushDown;
    TiDBOptInSubqUnFolding; TiDBEnableTablePartition; TiDBBatchInsert;
    TiDBDisableTxnAutoRetry; TiDBEnableStreaming; TiDBBatchDelete ].

Definition positiveIntegers : list string :=
  [ TiDBIndexLookupConcurrency; TiDBIndexLookupJoinConcurrency;
    TiDBIndexJoinBatchSize; TiDBIndexLookupSize; TiDBHashJoinConcurrency;
    TiDBHashAggPartialConcurrency; TiDBHashAggFinalConcurrency;
    TiDBDistSQLScanConcurrency; TiDBIndexSerialScanConcurrency;
    TiDBDDLReorgWorkerCount; TiDBBackoffLockFast; TiDBMaxChunkSize;
    TiDBDMLBatchSize; TiDBOptimizerSelectivityLevel; TiDBGeneralLog ].

Definition signedIntegers : list string :=
  [ TiDBProjectionConcurrency; TIDBMemQuotaQuery; TIDBMemQuotaHashJoin;
    TIDBMemQuotaMergeJoin; TIDBMemQuotaSort; TIDBMemQuotaTopn;
    TIDBMemQuotaIndexLookupReader; TIDBMemQuotaIndexLookupJoin;
    TIDBMemQuotaNestedLoopApply; TiDBRetryLimit ].

(** The upper-case ASCII letters and the underscore: the bytes of the
    words that the code compares values with. *)
Definition upperWordByte (c : ascii) : bool :=
  ((65 <=? byteOf c) && (byteOf c <=? 90)) || (byteOf c =? 95).

Fixpoint upperWord (t : string) : bool :=
  match t with
  | EmptyString => true
  | String c t' => upperWordByte c && upperWord t'
  end.

(** The bytes of [plainUpper] and the underscore. *)
Definition plainWordByte (c : ascii) : bool :=
  plainUpperByte c || (byteOf c =? 95).

Fixpoint plainWord (t : string) : bool :=
  match t with
  | EmptyString => true
  | String c t' => plainWordByte c && plainWord t'
  end.

(** The session with another accessor of the global store. *)
Definition withGlobalVars (s : SessionVars) (g : GlobalVarsAccessor) : SessionVars :=
  mkSessionVars (systems s) (StmtCtx s) (TxnCtx s) (SnapshotTS s) g.

(** * Properties *)

(** ** Machine integers *)

Lemma int64_small (z : Z) : inInt64 z -> int64 z = z.
Proof.
  unfold inInt64, int64. intros H.
  rewrite Z.mod_small by lia. lia.
Qed.

Lemma uint64_int64 (z : Z) : uint64 (int64 z) = uint64 z.
Proof.
  unfold uint64, int64. Z.div_mod_to_equations. lia.
Qed.

Lemma quot_Millisecond_bound (n : Z) :
  inInt64 n -> - 2 ^ 44 < goDiv n Millisecond < 2 ^ 44.
Proof.
  unfold inInt64, goDiv, Millisecond. intros H.
  Z.quot_rem_to_equations. lia.
Qed.

Lemma quot_Millisecond_mono (a b : Z) :
  a <= b -> goDiv a Millisecond <= goDiv b Millisecond.
Proof.
  unfold goDiv, Millisecond. intros H.
  Z.quot_rem_to_equations. lia.
Qed.

Lemma quot_Millisecond_sign (n : Z) :
  (- Millisecond < n -> 0 <= goDiv n Millisecond) /\
  (n <= - Millisecond -> goDiv n Millisecond < 0).
Proof.
  unfold goDiv, Millisecond. split; intros H; Z.quot_rem_to_equations; lia.
Qed.

(** The timestamp of an instant in the range of [UnixNano], in terms of
    its count of milliseconds. *)
Lemma GoTimeToTS_eq (t : Time) :
  inInt64 (nanos t) ->
  GoTimeToTS t = (goDiv (nanos t) Millisecond * 2 ^ 18) mod 2 ^ 64.
Proof.
  intros H. unfold GoTimeToTS, shl64, UnixNano, epochShiftBits.
  rewrite uint64_int64. unfold uint64.
  rewrite (int64_small Millisecond) by (unfold inInt64, Millisecond; lia).
  rewrite (int64_small (nanos t)) by exact H.
  rewrite Z.shiftl_mul_pow2 by lia. reflexivity.
Qed.

(** ** GoTimeToTS *)

(** The timestamp is a multiple of [2 ^ epochShiftBits], whatever the
    instant. *)
Lemma GoTimeToTS_low_bits (t : Time) :
  Z.land (GoTimeToTS t) (Z.ones epochShiftBits) = 0.
Proof.
  unfold GoTimeToTS, shl64, epochShiftBits.
  rewrite uint64_int64. unfold uint64.
  rewrite Z.land_ones by lia.
  rewrite Z.shiftl_mul_pow2 by lia.
  Z.div_mod_to_equations. lia.
Qed.

(** C4, as stated, fails: one second before the Unix epoch is earlier
    than the epoch, but its timestamp, a negative [int64] converted to
    [uint64], is larger than the timestamp 0 of the epoch. *)
Lemma GoTimeToTS_not_monotone_across_epoch :
  Before (mkTime (-1) 0) (mkTime 0 0) /\
  validTime (mkTime (-1) 0) /\ validTime (mkTime 0 0) /\
  GoTimeToTS (mkTime (-1) 0) = 18446744073447407616 /\
  GoTimeToTS (mkTime 0 0) = 0 /\
  ~ GoTimeToTS (mkTime (-1) 0) <= GoTimeToTS (mkTime 0 0).
Proof.
  unfold Before, validTime. cbn.
  repeat split; try lia; vm_compute; congruence.
Qed.

(** C4, amended: for instants [t1] before [t2] in the range of
    [UnixNano] that the epoch does not separate ([t1] is later than one
    millisecond before the epoch, or [t2] is not), the timestamp of [t1]
    is at most that of [t2]; and the low [epochShiftBits] bits of every
    timestamp are zero. *)
Theorem GoTimeToTS_monotone_same_side (t1 t2 : Time) :
  (inInt64 (nanos t1) -> inInt64 (nanos t2) -> Before t1 t2 ->
   - Millisecond < nanos t1 \/ nanos t2 <= - Millisecond ->
   GoTimeToTS t1 <= GoTimeToTS t2) /\
  Z.land (GoTimeToTS t1) (Z.ones epochShiftBits) = 0 /\
  (forall i, 0 <= i < epochShiftBits -> Z.testbit (GoTimeToTS t1) i = false).
Proof.
  split; [| split].
  - intros R1 R2 Hlt Hside. unfold Before in Hlt.
    rewrite !GoTimeToTS_eq by assumption.
    pose proof (quot_Millisecond_bound _ R1) as B1.
    pose proof (quot_Millisecond_bound _ R2) as B2.
    pose proof (quot_Millisecond_mono (nanos t1) (nanos t2) ltac:(lia)) as M.
    pose proof (quot_Millisecond_sign (nanos t1)) as [P1 N1].
    pose proof (quot_Millisecond_sign (nanos t2)) as [P2 N2].
    set (m1 := goDiv (nanos t1) Millisecond) in *.
    set (m2 := goDiv (nanos t2) Millisecond) in *.
    destruct Hside as [Hs | Hs].
    + specialize (P1 Hs).
      rewrite !Z.mod_small by lia. lia.
    + specialize (N2 Hs).
      replace (m1 * 2 ^ 18) with (m1 * 2 ^ 18 + 2 ^ 64 - 1 * 2 ^ 64) by lia.
      replace (m2 * 2 ^ 18) with (m2 * 2 ^ 18 + 2 ^ 64 - 1 * 2 ^ 64) by lia.
      unfold Z.sub at 1 2. rewrite <- !Z.mul_opp_l.
      rewrite !Z.mod_add by lia.
      rewrite !Z.mod_small by lia. lia.
  - apply GoTimeToTS_low_bits.
  - intros i Hi.
    pose proof (GoTimeToTS_low_bits t1) as L.
    apply (f_equal (fun z => Z.testbit z i)) in L.
    rewrite Z.land_spec, Z.bits_0 in L.
    rewrite Z.ones_spec_low in L by exact Hi.
    rewrite andb_true_r in L. exact L.
Qed.

(** The amended C4 at the instants 1 s and 2 s after the epoch. *)
Lemma GoTimeToTS_monotone_witness :
  Before (mkTime 1 0) (mkTime 2 0) /\
  GoTimeToTS (mkTime 1 0) <= GoTimeToTS (mkTime 2 0).
Proof.
  split; [unfold Before, nanos; simpl; lia |].
  apply (proj1 (GoTimeToTS_monotone_same_side (mkTime 1 0) (mkTime 2 0)));
    unfold inInt64, Before, Millisecond, nanos; simpl; lia.
Defined.

(** ** The DDL reorganisation worker counter *)

(** C10: after [SetDDLReorgWorkerCounter cnt] the counter reads
    [min cnt maxDDLReorgWorkerCount]: an input above the maximum is capped
    to it, any other input is stored as it is, so that (the maximum not
    being negative) a zero or negative input is stored unchanged; the rest
    of the process state is untouched. *)
Theorem SetDDLReorgWorkerCounter_stores_min
    (maxDDLReorgWorkerCount : Z) (p : Process) (cnt : Z) :
  let p' := SetDDLReorgWorkerCounter maxDDLReorgWorkerCount p cnt in
  GetDDLReorgWorkerCounter p' = Z.min cnt maxDDLReorgWorkerCount /\
  (maxDDLReorgWorkerCount < cnt -> GetDDLReorgWorkerCounter p' = maxDDLReorgWorkerCount) /\
  (cnt <= maxDDLReorgWorkerCount -> GetDDLReorgWorkerCounter p' = cnt) /\
  (0 <= maxDDLReorgWorkerCount -> cnt <= 0 -> GetDDLReorgWorkerCounter p' = cnt) /\
  ProcessGeneralLog p' = ProcessGeneralLog p /\
  configJSON p' = configJSON p.
Proof.
  intros p'. subst p'.
  unfold GetDDLReorgWorkerCounter, SetDDLReorgWorkerCounter. cbn.
  destruct (Z.gtb_spec cnt maxDDLReorgWorkerCount) as [Hgt | Hle];
    repeat split; lia.
Qed.

(** C10 with the maximum 128, at a negative count. *)
Lemma SetDDLReorgWorkerCounter_witness :
  0 <= 128 /\ -3 <= 0 /\
  GetDDLReorgWorkerCounter (SetDDLReorgWorkerCounter 128 exampleProcess (-3)) = -3.
Proof.
  split; [lia |]. split; [lia |].
  apply (proj1 (proj2 (proj2 (proj2
           (SetDDLReorgWorkerCounter_stores_min 128 exampleProcess (-3)))))); lia.
Defined.

(** ** Case folding *)

Lemma plainUpperByte_fold (tr sr : ascii) :
  plainUpperByte tr = true ->
  asciiFoldEq sr tr = Ascii.eqb (upperByte sr) tr /\
  isFoldS tr = false /\ isFoldK tr = false.
Proof.
  intros H.
  destruct tr as [[] [] [] [] [] [] [] []]; vm_compute in H; try discriminate H;
    clear H;
    (split; [| split; reflexivity]);
    destruct sr as [[] [] [] [] [] [] [] []]; vm_compute; reflexivity.
Qed.

(** Against a word of plain upper-case letters, [EqualFold] holds of the
    spellings of the word in any casing, and of nothing else. *)
Lemma EqualFold_upperASCII (t : string) :
  plainUpper t = true ->
  forall s, EqualFold s t = (upperASCII s =s? t).
Proof.
  induction t as [| tr t' IH]; intros Hp s.
  - destruct s; reflexivity.
  - cbn in Hp. apply andb_true_iff in Hp as [Hc Ht].
    destruct s as [| sr s'].
    + reflexivity.
    + pose proof (plainUpperByte_fold tr sr Hc) as (Hf & HS & HK).
      cbn [EqualFold upperASCII mapBytes String.eqb].
      rewrite Hf, HS, HK, !andb_false_r.
      fold (upperASCII s'). rewrite (IH Ht s').
      destruct (Ascii.eqb (upperByte sr) tr); reflexivity.
Qed.

Lemma EqualFold_casing (t s : string) :
  plainUpper t = true ->
  (EqualFold s t = true <-> upperASCII s = t).
Proof.
  intros Hp. rewrite (EqualFold_upperASCII t Hp s). apply String.eqb_eq.
Qed.

Lemma EqualFold_not_casing (t s : string) :
  plainUpper t = true ->
  (EqualFold s t = false <-> upperASCII s <> t).
Proof.
  intros Hp. rewrite (EqualFold_upperASCII t Hp s). apply String.eqb_neq.
Qed.

(** ** Numbers are not the word DEFAULT *)

(** A string whose first byte does not fold to D is not a casing of
    DEFAULT; the strings that [strconv] parses start with a sign or a
    digit. *)
Lemma parseDigits_not_DEFAULT (maxVal : Z) (s : string) (v : Z) :
  s <> EmptyString ->
  parseDigits maxVal 0 s = (v, None) -> EqualFold s "DEFAULT" = false.
Proof.
  intros Hne H. destruct s as [| c rest]; [congruence |].
  destruct c as [[] [] [] [] [] [] [] []]; try reflexivity;
    cbn in H; discriminate H.
Qed.

Lemma ParseUint_not_DEFAULT (s : string) (bitSize v : Z) :
  ParseUint s bitSize = (v, None) -> EqualFold s "DEFAULT" = false.
Proof.
  intros H. destruct s as [| c rest]; [discriminate H |].
  unfold ParseUint in H.
  eapply parseDigits_not_DEFAULT; [discriminate | exact H].
Qed.



(** What [ParseUint] reads fits the result type. *)
Lemma parseDigits_range (maxVal : Z) (s : string) (n v : Z) :
  0 <= n <= maxVal ->
  parseDigits maxVal n s = (v, None) -> 0 <= v <= maxVal.
Proof.
  revert n. induction s as [| c s' IH]; intros n Hn H; cbn [parseDigits] in H.
  - injection H as <-. exact Hn.
  - destruct (isDigit c) eqn:Hd; cbn [negb] in H; [| discriminate H].
    unfold isDigit in Hd. apply andb_true_iff in Hd as [Hd1 Hd2].
    apply Z.leb_le in Hd1, Hd2. cbv zeta in H.
    destruct (n >=? _); [discriminate H |].
    destruct (_ || _) eqn:Hov; [discriminate H |].
    apply orb_false_iff in Hov as [_ Hmax].
    rewrite Z.gtb_ltb in Hmax. apply Z.ltb_ge in Hmax.
    eapply IH; [| exact H]. lia.
Qed.

Lemma ParseUint_range (s : string) (v : Z) :
  ParseUint s 64 = (v, None) -> 0 <= v <= 18446744073709551615.
Proof.
  intros H. destruct s as [| c rest]; [discriminate H |].
  unfold ParseUint in H.
  change (2 ^ (if 64 =? 0 then IntSize else 64) - 1) with 18446744073709551615 in H.
  eapply parseDigits_range; [| exact H]. lia.
Qed.

(** ** The dispatch of ValidateSetSystemVar *)

Section Validation.

Variable SysVars : gmap string SysVar.
Variable unicodeLower : string -> string.

Abbreviation Validate := (ValidateSetSystemVar SysVars unicodeLower).

Lemma Validate_DEFAULT (vars : SessionVars) (name value : string) :
  EqualFold value "DEFAULT" = true ->
  Validate vars name value =
    match SysVars !! ToLower unicodeLower name with
    | Some val => (vars, (Value val, None))
    | None => (vars, (value, Some (mkError CodeUnknownSystemVar [name])))
    end.
Proof.
  intros H. unfold ValidateSetSystemVar, GetSysVar. rewrite H. reflexivity.
Qed.

Lemma Validate_DefaultWeekFormat (vars : SessionVars) (value : string) :
  EqualFold value "DEFAULT" = false ->
  Validate vars DefaultWeekFormat value =
    match Atoi value with
    | (_, Some _) =>
        (vars, (value, Some (mkError CodeWrongTypeForVar [DefaultWeekFormat])))
    | (val, None) =>
        if val <? 0 then (warned vars DefaultWeekFormat value, ("0", None))
        else if val >? 7 then (warned vars DefaultWeekFormat value, ("7", None))
        else (vars, (value, None))
    end.
Proof.
  intros H. unfold ValidateSetSystemVar. rewrite H. reflexivity.
Qed.

Lemma Validate_DelayKeyWrite (vars : SessionVars) (value : string) :
  EqualFold value "DEFAULT" = false ->
  Validate vars DelayKeyWrite value =
    if EqualFold value "ON" || (value =s? "1") then (vars, ("ON", None))
    else if EqualFold value "OFF" || (value =s? "0") then (vars, ("OFF", None))
    else if EqualFold value "ALL" || (value =s? "2") then (vars, ("ALL", None))
    else (vars, (value, Some (mkError CodeWrongValueForVar [DelayKeyWrite; value]))).
Proof.
  intros H. unfold ValidateSetSystemVar. rewrite H. reflexivity.
Qed.

Lemma Validate_GroupConcatMaxLen (vars : SessionVars) (value : string) :
  EqualFold value "DEFAULT" = false ->
  Validate vars GroupConcatMaxLen value =
    match ParseUint value 64 with
    | (_, Some _) =>
        (vars, (value, Some (mkError CodeWrongTypeForVar [GroupConcatMaxLen])))
    | (val, None) =>
        if val <? 4 then (warned vars GroupConcatMaxLen value, ("4", None))
        else if val >? 18446744073709551615 then
          (warned vars GroupConcatMaxLen value, ("18446744073709551615", None))
        else (vars, (value, None))
    end.
Proof.
  intros H. unfold ValidateSetSystemVar. rewrite H. reflexivity.
Qed.

Lemma Validate_read_only (vars : SessionVars) (name value : string) :
  name = WarningCount \/ name = ErrorCount ->
  EqualFold value "DEFAULT" = false ->
  Validate vars name value = (vars, (value, Some (mkError CodeReadOnly [name]))).
Proof.
  intros [-> | ->] H; unfold ValidateSetSystemVar; rewrite H; reflexivity.
Qed.

End Validation.

(** ** The week format: a bounded integer *)


(** A string of digits beyond the range of [int] is not read by [Atoi]:
    the week format refuses it with WrongTypeForVar. *)
Lemma DefaultWeekFormat_beyond_int_refused
    (SysVars : gmap string SysVar) (unicodeLower : string -> string)
    (vars : SessionVars) :
  ValidateSetSystemVar SysVars unicodeLower vars DefaultWeekFormat
      "-9223372036854775809" =
    (vars, ("-9223372036854775809",
            Some (GenByArgs ErrWrongTypeForVar [DefaultWeekFormat]))).
Proof.
  rewrite Validate_DefaultWeekFormat by reflexivity. reflexivity.
Qed.


(** ** Delayed key writes: a strict enumeration *)

(** C9, as stated, fails: "default" is none of the listed spellings, and
    it is not rejected: the default of the catalog comes back. *)
Lemma DelayKeyWrite_default_not_rejected :
  upperASCII "default" <> "ON" /\ upperASCII "default" <> "OFF" /\
  upperASCII "default" <> "ALL" /\
  ValidateSetSystemVar exampleSysVars exampleUnicodeLower exampleVars
      DelayKeyWrite "default" = (exampleVars, ("ON", None)) /\
  (forall SysVars unicodeLower vars,
     snd (snd (ValidateSetSystemVar SysVars unicodeLower vars
                 DelayKeyWrite "default")) <>
     Some (GenByArgs ErrWrongValueForVar [DelayKeyWrite; "default"])).
Proof.
  repeat split; try (vm_compute; congruence).
  intros SysVars unicodeLower vars.
  rewrite Validate_DEFAULT by reflexivity.
  unfold GenByArgs, ErrWrongValueForVar.
  destruct (SysVars !! _); cbn; congruence.
Qed.

(** C9, amended: for delayed key writes, a value other than the word
    DEFAULT (in any casing) is mapped to "ON" when it is ON in any casing
    or "1", to "OFF" when it is OFF in any casing or "0", to "ALL" when it
    is ALL in any casing or "2", and otherwise fails with
    WrongValueForVar, as "7" does; the session is unchanged. *)
Theorem DelayKeyWrite_enumeration
    (SysVars : gmap string SysVar) (unicodeLower : string -> string)
    (vars : SessionVars) (value : string) :
  upperASCII value <> "DEFAULT" ->
  let r := ValidateSetSystemVar SysVars unicodeLower vars DelayKeyWrite value in
  (upperASCII value = "ON" \/ value = "1" -> r = (vars, ("ON", None))) /\
  (upperASCII value = "OFF" \/ value = "0" -> r = (vars, ("OFF", None))) /\
  (upperASCII value = "ALL" \/ value = "2" -> r = (vars, ("ALL", None))) /\
  (upperASCII value <> "ON" -> value <> "1" ->
   upperASCII value <> "OFF" -> value <> "0" ->
   upperASCII value <> "ALL" -> value <> "2" ->
   r = (vars, (value, Some (GenByArgs ErrWrongValueForVar [DelayKeyWrite; value])))) /\
  ValidateSetSystemVar SysVars unicodeLower vars DelayKeyWrite "7" =
    (vars, ("7", Some (GenByArgs ErrWrongValueForVar [DelayKeyWrite; "7"]))).
Proof.
  intros Hd r. subst r.
  apply (EqualFold_not_casing "DEFAULT" value eq_refl) in Hd.
  rewrite (Validate_DelayKeyWrite _ _ _ _ Hd).
  rewrite (Validate_DelayKeyWrite _ _ _ "7" eq_refl).
  rewrite !(EqualFold_upperASCII "ON"), !(EqualFold_upperASCII "OFF"),
    !(EqualFold_upperASCII "ALL") by reflexivity.
  destruct (String.eqb_spec (upperASCII value) "ON") as [On | On];
  destruct (String.eqb_spec value "1") as [E1 | E1];
  destruct (String.eqb_spec (upperASCII value) "OFF") as [Off | Off];
  destruct (String.eqb_spec value "0") as [E0 | E0];
  destruct (String.eqb_spec (upperASCII value) "ALL") as [All | All];
  destruct (String.eqb_spec value "2") as [E2 | E2];
  cbn [orb]; subst; repeat split; intros; try reflexivity;
    repeat match goal with
    | H : _ \/ _ |- _ => destruct H
    end;
    try congruence; try discriminate.
Qed.

(** The amended C9 at the input "all". *)
Lemma DelayKeyWrite_enumeration_witness :
  upperASCII "all" <> "DEFAULT" /\
  ValidateSetSystemVar exampleSysVars exampleUnicodeLower exampleVars
      DelayKeyWrite "all" = (exampleVars, ("ALL", None)).
Proof.
  assert (H : upperASCII "all" <> "DEFAULT") by (vm_compute; congruence).
  split; [exact H |].
  apply (DelayKeyWrite_enumeration exampleSysVars exampleUnicodeLower
           exampleVars "all" H).
  left. reflexivity.
Defined.

(** ** Read-only variables *)

(** C3, as stated, fails: with the value "DEFAULT" the error counter is
    not refused; the default of the catalog comes back, and under no
    catalog is the error ReadOnly. *)
Lemma read_only_DEFAULT_not_refused :
  ValidateSetSystemVar exampleSysVars exampleUnicodeLower exampleVars
      ErrorCount "DEFAULT" = (exampleVars, ("0", None)) /\
  (forall SysVars unicodeLower vars,
     snd (snd (ValidateSetSystemVar SysVars unicodeLower vars
                 ErrorCount "DEFAULT")) <>
     Some (GenByArgs ErrReadOnly [ErrorCount])).
Proof.
  split; [vm_compute; reflexivity |].
  intros SysVars unicodeLower vars.
  rewrite Validate_DEFAULT by reflexivity.
  unfold GenByArgs, ErrReadOnly.
  destruct (SysVars !! _); cbn; congruence.
Qed.

(** C3, amended: setting the warning counter or the error counter to a
    value other than the word DEFAULT (in any casing) fails with
    ReadOnly, and the session is unchanged. *)
Theorem read_only_refused
    (SysVars : gmap string SysVar) (unicodeLower : string -> string)
    (vars : SessionVars) (name value : string) :
  name = WarningCount \/ name = ErrorCount ->
  upperASCII value <> "DEFAULT" ->
  ValidateSetSystemVar SysVars unicodeLower vars name value =
    (vars, (value, Some (GenByArgs ErrReadOnly [name]))).
Proof.
  intros Hname Hd.
  apply (EqualFold_not_casing "DEFAULT" value eq_refl) in Hd.
  apply Validate_read_only; assumption.
Qed.

(** The amended C3 at the warning counter and the value "17". *)
Lemma read_only_refused_witness :
  ValidateSetSystemVar exampleSysVars exampleUnicodeLower exampleVars
      WarningCount "17" =
    (exampleVars, ("17", Some (GenByArgs ErrReadOnly [WarningCount]))).
Proof.
  apply (read_only_refused exampleSysVars exampleUnicodeLower exampleVars
           WarningCount "17").
  - left. reflexivity.
  - vm_compute. congruence.
Defined.

(** ** The word DEFAULT *)

(** C8: for a value that is DEFAULT in any casing, the validation of a
    name of the catalog returns the default value of its descriptor, with
    no error and the session unchanged, whatever rule the name has; for a
    name that the catalog does not have it fails with UnknownVariable. *)
Theorem DEFAULT_returns_catalog_default
    (SysVars : gmap string SysVar) (unicodeLower : string -> string)
    (vars : SessionVars) (name value : string) :
  upperASCII value = "DEFAULT" ->
  (forall sysVar, SysVars !! ToLower unicodeLower name = Some sysVar ->
     ValidateSetSystemVar SysVars unicodeLower vars name value =
       (vars, (Value sysVar, None))) /\
  (SysVars !! ToLower unicodeLower name = None ->
     ValidateSetSystemVar SysVars unicodeLower vars name value =
       (vars, (value, Some (GenByArgs UnknownSystemVar [name])))).
Proof.
  intros Hd.
  apply (EqualFold_casing "DEFAULT" value eq_refl) in Hd.
  rewrite (Validate_DEFAULT _ _ _ _ _ Hd).
  split.
  - intros sysVar ->. reflexivity.
  - intros ->. reflexivity.
Qed.

(** C8 at the read-only warning counter and the value "DeFaUlT". *)
Lemma DEFAULT_returns_catalog_default_witness :
  upperASCII "DeFaUlT" = "DEFAULT" /\
  ValidateSetSystemVar exampleSysVars exampleUnicodeLower exampleVars
      WarningCount "DeFaUlT" = (exampleVars, ("0", None)).
Proof.
  split; [reflexivity |].
  apply (proj1 (DEFAULT_returns_catalog_default exampleSysVars
                  exampleUnicodeLower exampleVars WarningCount "DeFaUlT"
                  eq_refl)
               (mkSysVar ScopeSession WarningCount "0")).
  vm_compute. reflexivity.
Defined.

(** ** The group-concat length: an unsigned bounded integer *)

(** No value that [ParseUint] returns exceeds [2 ^ 64 - 1]: the branch
    of the group-concat length that clamps to the upper bound is never
    taken. *)
Lemma GroupConcatMaxLen_upper_clamp_dead (value : string) (val : Z) :
  ParseUint value 64 = (val, None) -> (val >? 18446744073709551615) = false.
Proof.
  intros H. apply ParseUint_range in H.
  rewrite Z.gtb_ltb. apply Z.ltb_ge. lia.
Qed.

(** The lower bound is enforced on what [ParseUint] reads: 0 to 3. *)
Lemma GroupConcatMaxLen_lower_clamp
    (SysVars : gmap string SysVar) (unicodeLower : string -> string)
    (vars : SessionVars) (value : string) (val : Z) :
  ParseUint value 64 = (val, None) -> val < 4 ->
  ValidateSetSystemVar SysVars unicodeLower vars GroupConcatMaxLen value =
    (warned vars GroupConcatMaxLen value, ("4", None)).
Proof.
  intros H Hlt.
  rewrite Validate_GroupConcatMaxLen by exact (ParseUint_not_DEFAULT _ _ _ H).
  rewrite H. destruct (Z.ltb_spec val 4); [reflexivity | lia].
Qed.

(** C2 at its failing inputs: a number above [2 ^ 64 - 1] and a negative
    number are not clamped to the nearest bound but refused with
    WrongTypeForVar, and no warning is appended. *)
Theorem GroupConcatMaxLen_out_of_range_refused
    (SysVars : gmap string SysVar) (unicodeLower : string -> string)
    (vars : SessionVars) :
  ValidateSetSystemVar SysVars unicodeLower vars GroupConcatMaxLen
      "18446744073709551616" =
    (vars, ("18446744073709551616",
            Some (GenByArgs ErrWrongTypeForVar [GroupConcatMaxLen]))) /\
  ValidateSetSystemVar SysVars unicodeLower vars GroupConcatMaxLen "-1" =
    (vars, ("-1", Some (GenByArgs ErrWrongTypeForVar [GroupConcatMaxLen]))).
Proof.
  split.
  - rewrite Validate_GroupConcatMaxLen by reflexivity. reflexivity.
  - rewrite Validate_GroupConcatMaxLen by reflexivity. reflexivity.
Qed.

(** ** The scope of an access *)

(** C7: for a name of the catalog whose scope is global-only or none, the
    check of a session access fails with IncorrectScope for the name and
    "GLOBAL" and the check of a global access passes; for a session-only
    name the check of a global access fails with IncorrectScope for the
    name and "SESSION"; a name that the catalog does not have fails with
    UnknownVariable. *)
Theorem ValidateGetSystemVar_scope
    (SysVars : gmap string SysVar) (name : string) :
  (forall sysVar, SysVars !! name = Some sysVar ->
     Scope sysVar = ScopeGlobal \/ Scope sysVar = ScopeNone ->
     ValidateGetSystemVar SysVars name false =
       Some (GenByArgs ErrIncorrectScope [name; "GLOBAL"]) /\
     ValidateGetSystemVar SysVars name true = None) /\
  (forall sysVar, SysVars !! name = Some sysVar ->
     Scope sysVar = ScopeSession ->
     ValidateGetSystemVar SysVars name true =
       Some (GenByArgs ErrIncorrectScope [name; "SESSION"]) /\
     ValidateGetSystemVar SysVars name false = None) /\
  (SysVars !! name = None ->
     forall isGlobal,
       ValidateGetSystemVar SysVars name isGlobal =
         Some (GenByArgs UnknownSystemVar [name])).
Proof.
  unfold ValidateGetSystemVar. split; [| split].
  - intros sysVar -> [-> | ->]; split; reflexivity.
  - intros sysVar -> ->. split; reflexivity.
  - intros -> isGlobal. reflexivity.
Qed.

(** C7 at the global-only [max_connections] of the example catalog. *)
Lemma ValidateGetSystemVar_scope_witness :
  ValidateGetSystemVar exampleSysVars MaxConnections false =
    Some (GenByArgs ErrIncorrectScope [MaxConnections; "GLOBAL"]) /\
  ValidateGetSystemVar exampleSysVars MaxConnections true = None.
Proof.
  apply (proj1 (ValidateGetSystemVar_scope exampleSysVars MaxConnections)
               (mkSysVar ScopeGlobal MaxConnections "151")).
  - vm_compute. reflexivity.
  - left. reflexivity.
Defined.

(** ** Failed writes change nothing *)

Ltac validate_cases :=
  repeat lazymatch goal with
  | |- validateOutcome _ _ _ (if ?b then _ else _) => destruct b
  | |- validateOutcome _ _ _ (match ?x with (_, _) => _ end) =>
      destruct x as [? [? |]]
  | |- validateOutcome _ _ _ (match ?x with Some _ => _ | None => _ end) =>
      destruct x
  end.

Lemma Validate_outcome
    (SysVars : gmap string SysVar) (unicodeLower : string -> string)
    (vars : SessionVars) (name value : string) :
  validateOutcome vars name value
    (ValidateSetSystemVar SysVars unicodeLower vars name value).
Proof.
  unfold ValidateSetSystemVar. validate_cases;
    unfold validateOutcome, truncated, AppendWarning, withStmtCtx, warned;
    cbn; auto 8.
Qed.

(** A validation that fails leaves the session as it is. *)
Lemma Validate_error_frame
    (SysVars : gmap string SysVar) (unicodeLower : string -> string)
    (vars vars' : SessionVars) (name value ret : string) (err : Error) :
  ValidateSetSystemVar SysVars unicodeLower vars name value =
    (vars', (ret, Some err)) ->
  vars' = vars /\
  In (errCode err)
     [CodeUnknownSystemVar; CodeWrongTypeForVar; CodeWrongValueForVar;
      CodeReadOnly].
Proof.
  intros H.
  pose proof (Validate_outcome SysVars unicodeLower vars name value) as O.
  rewrite H in O. exact O.
Qed.

(** Every error of [SetSessionSystemVar] is a hard failure, which leaves
    the session as it is, or is the error of [SetSystemVar] on a value
    that passed the validation. *)
Lemma SetSessionSystemVar_error_cases
    (SysVars : gmap string SysVar) (unicodeLower : string -> string)
    (Datum : Type) (IsNull : Datum -> bool)
    (ToString : Datum -> string * option Error)
    (SetSystemVar : SessionVars -> string -> string -> SessionVars * option Error)
    (vars vars' : SessionVars) (name : string) (value : Datum) (err : Error) :
  SetSessionSystemVar SysVars unicodeLower Datum IsNull ToString
    SetSystemVar vars name value = (vars', Some err) ->
  (HardFailure SysVars unicodeLower IsNull ToString vars name value err /\
   vars' = vars) \/
  (exists vars1 sVal,
     SetSystemVar vars1 (ToLower unicodeLower name) sVal = (vars', Some err)).
Proof.
  unfold SetSessionSystemVar. intros H.
  destruct (SysVars !! ToLower unicodeLower name) as [sysVar |] eqn:Hl.
  - destruct (IsNull value) eqn:Hn.
    + unfold deleteSystemVar in H. discriminate H.
    + destruct (ToString value) as [sVal [e |]] eqn:Hc.
      * injection H as <- <-. left. split; [| reflexivity].
        eapply conversion_fails; eassumption.
      * destruct (ValidateSetSystemVar _ _ _ _ _) as [vars1 [ret [e |]]] eqn:Hv.
        -- injection H as <- <-. left.
           pose proof (Validate_error_frame _ _ _ _ _ _ _ _ Hv) as [-> _].
           split; [| reflexivity].
           eapply validation_fails; eassumption.
        -- right. exists vars1, ret. exact H.
  - injection H as <- <-. left. split; [| reflexivity].
    apply lookup_fails. exact Hl.
Qed.

(** C1: when the write of a session variable fails hard (the name is not
    in the catalog, the value has no string form, or the validation
    refuses it), [SetSessionSystemVar] returns that error and the session
    is as it was before the call: the overlay has no entry inserted,
    deleted or modified, and the accessor of the global store is the
    same.  The error of a failed validation is UnknownVariable,
    WrongTypeForVar, WrongValueForVar or ReadOnly.  This holds whatever
    [SetSystemVar] does, since it is not reached. *)
Theorem SetSessionSystemVar_hard_failure_frame
    (SysVars : gmap string SysVar) (unicodeLower : string -> string)
    (Datum : Type) (IsNull : Datum -> bool)
    (ToString : Datum -> string * option Error)
    (SetSystemVar : SessionVars -> string -> string -> SessionVars * option Error)
    (vars : SessionVars) (name : string) (value : Datum) (err : Error) :
  HardFailure SysVars unicodeLower IsNull ToString vars name value err ->
  let r := SetSessionSystemVar SysVars unicodeLower Datum IsNull ToString
             SetSystemVar vars name value in
  snd r = Some err /\
  fst r = vars /\
  (forall key, systems (fst r) !! key = systems vars !! key) /\
  globalVars (fst r) = globalVars vars.
Proof.
  intros H r.
  assert (Hr : r = (vars, Some err)).
  { subst r. unfold SetSessionSystemVar.
    destruct H as [Hl | sysVar sVal e Hl Hn Hc | sysVar sVal ret vars' e Hl Hn Hc Hv].
    - rewrite Hl. reflexivity.
    - rewrite Hl, Hn, Hc. reflexivity.
    - rewrite Hl, Hn, Hc, Hv.
      apply Validate_error_frame in Hv as [-> _]. reflexivity. }
  rewrite Hr. cbn. auto.
Qed.

(** C1 in the example session: a write to the read-only error counter. *)
Lemma SetSessionSystemVar_hard_failure_witness :
  HardFailure exampleSysVars exampleUnicodeLower exampleIsNull exampleToString
    exampleVars "Error_Count" (DatumString "3") (GenByArgs ErrReadOnly [ErrorCount]) /\
  SetSessionSystemVar exampleSysVars exampleUnicodeLower exampleDatum
    exampleIsNull exampleToString exampleSetSystemVar
    exampleVars "Error_Count" (DatumString "3") =
  (exampleVars, Some (GenByArgs ErrReadOnly [ErrorCount])).
Proof.
  assert (H : HardFailure exampleSysVars exampleUnicodeLower exampleIsNull
                exampleToString exampleVars "Error_Count" (DatumString "3")
                (GenByArgs ErrReadOnly [ErrorCount])).
  { apply (validation_fails _ _ _ _ _ _ _
             (mkSysVar ScopeSession ErrorCount "0") "3" "3" exampleVars);
      vm_compute; reflexivity. }
  split; [exact H |].
  pose proof (SetSessionSystemVar_hard_failure_frame exampleSysVars
                exampleUnicodeLower exampleDatum exampleIsNull exampleToString
                exampleSetSystemVar exampleVars "Error_Count" (DatumString "3")
                _ H) as (He & Hv & _).
  apply injective_projections; cbn [fst snd]; assumption.
Defined.

(** ** Writing null *)

(** C6, as stated, fails for a virtual variable: after the overlay entry
    of [tidb_current_ts] is deleted, a read of it does not take the
    default/global path, which would give the default "0" of this
    session-only variable; it gives the start timestamp of the
    transaction, "5". *)
Lemma null_write_then_read_virtual :
  let vars' := fst (SetSessionSystemVar exampleSysVars exampleUnicodeLower
                      exampleDatum exampleIsNull exampleToString
                      exampleSetSystemVar exampleVars TiDBCurrentTS DatumNull) in
  exampleSysVars !! TiDBCurrentTS = Some (mkSysVar ScopeSession TiDBCurrentTS "0") /\
  systems exampleVars !! TiDBCurrentTS = Some "1" /\
  systems vars' !! TiDBCurrentTS = None /\
  snd (defaultOrGlobal (mkSysVar ScopeSession TiDBCurrentTS "0") vars' TiDBCurrentTS) =
    ("0", None) /\
  snd (GetSessionSystemVar exampleSysVars exampleUnicodeLower exampleProcess
         vars' TiDBCurrentTS) = ("5", None) /\
  GetSessionSystemVar exampleSysVars exampleUnicodeLower exampleProcess
    vars' TiDBCurrentTS <>
  defaultOrGlobal (mkSysVar ScopeSession TiDBCurrentTS "0") vars' TiDBCurrentTS.
Proof.
  cbv zeta. repeat split; try (vm_compute; reflexivity).
  intros H. apply (f_equal snd) in H. vm_compute in H. discriminate H.
Qed.

(** C6, amended: for a name of the catalog, [SetSessionSystemVar] with a
    null value deletes the overlay entry of the lower-cased name and
    returns no error; no other overlay entry, no warning and nothing of
    the global store changes.  A following [GetSessionSystemVar] of the
    name, unless the variable is one of the three virtual ones, takes the
    default/global path: the default of the catalog when the scope
    excludes global, the result of the global read otherwise. *)
Theorem null_write_deletes_overlay_entry
    (SysVars : gmap string SysVar) (unicodeLower : string -> string)
    (Datum : Type) (IsNull : Datum -> bool)
    (ToString : Datum -> string * option Error)
    (SetSystemVar : SessionVars -> string -> string -> SessionVars * option Error)
    (p : Process) (vars : SessionVars) (name : string) (value : Datum)
    (sysVar : SysVar) :
  SysVars !! ToLower unicodeLower name = Some sysVar ->
  IsNull value = true ->
  let key := ToLower unicodeLower name in
  let r := SetSessionSystemVar SysVars unicodeLower Datum IsNull ToString
             SetSystemVar vars name value in
  snd r = None /\
  systems (fst r) = delete key (systems vars) /\
  systems (fst r) !! key = None /\
  (forall k, k <> key -> systems (fst r) !! k = systems vars !! k) /\
  StmtCtx (fst r) = StmtCtx vars /\
  globalVars (fst r) = globalVars vars /\
  (isVirtual sysVar = false ->
   GetSessionSystemVar SysVars unicodeLower p (fst r) name =
     defaultOrGlobal sysVar (fst r) key).
Proof.
  intros Hl Hn key r. subst key r.
  set (key := ToLower unicodeLower name) in *.
  set (r := SetSessionSystemVar _ _ _ _ _ _ _ _ _).
  assert (Hr : r = (withSystems vars (delete key (systems vars)), None)).
  { subst r. unfold SetSessionSystemVar. fold key. rewrite Hl, Hn. reflexivity. }
  rewrite Hr. cbn [fst snd withSystems systems StmtCtx globalVars].
  split; [reflexivity |]. split; [reflexivity |].
  split; [apply lookup_delete_eq |].
  split; [intros k Hk; apply lookup_delete_ne; congruence |].
  split; [reflexivity |]. split; [reflexivity |].
  intros Hv. unfold isVirtual, oneOf in Hv. cbn [existsb] in Hv.
  rewrite !orb_false_iff in Hv. destruct Hv as (V1 & V2 & V3 & _).
  unfold GetSessionSystemVar, GetSessionOnlySysVars, defaultOrGlobal.
  fold key. rewrite Hl, V1, V2, V3.
  cbn [systems withSystems globalVars]. rewrite lookup_delete_eq.
  destruct (Z.land (Scope sysVar) ScopeGlobal =? 0); cbn; [reflexivity |].
  destruct (GetGlobalSysVar (globalVars vars) key) as [gVal [e |]]; reflexivity.
Qed.

(** The amended C6 at the week format of the example session, which is
    then read from the global store. *)
Lemma null_write_deletes_overlay_entry_witness :
  let vars' := fst (SetSessionSystemVar exampleSysVars exampleUnicodeLower
                      exampleDatum exampleIsNull exampleToString
                      exampleSetSystemVar exampleVars "DEFAULT_WEEK_FORMAT"
                      DatumNull) in
  systems exampleVars !! DefaultWeekFormat = Some "2" /\
  systems vars' !! DefaultWeekFormat = None /\
  snd (GetSessionSystemVar exampleSysVars exampleUnicodeLower exampleProcess
         vars' "DEFAULT_WEEK_FORMAT") = ("3", None).
Proof.
  cbv zeta.
  pose proof (null_write_deletes_overlay_entry exampleSysVars
                exampleUnicodeLower exampleDatum exampleIsNull exampleToString
                exampleSetSystemVar exampleProcess exampleVars
                "DEFAULT_WEEK_FORMAT" DatumNull
                (mkSysVar (Z.lor ScopeGlobal ScopeSession) DefaultWeekFormat "0")
                ltac:(vm_compute; reflexivity) eq_refl) as H.
  cbv zeta in H. destruct H as (_ & _ & Hk & _ & _ & _ & Hget).
  split; [vm_compute; reflexivity |].
  split; [exact Hk |].
  rewrite (Hget eq_refl). vm_compute. reflexivity.
Defined.

(** * Further properties of the code *)

(** ** Decimal numerals *)

Lemma digitsAcc_of_uint_acc (d : Decimal.uint) (p : positive) :
  Z.pos (Pos.of_uint_acc d p) = digitsAcc d (Z.pos p).
Proof.
  revert p. induction d as [| d IH | d IH | d IH | d IH | d IH | d IH
                            | d IH | d IH | d IH | d IH];
    intros p; cbn [Pos.of_uint_acc digitsAcc]; [reflexivity | ..];
    rewrite IH; f_equal; lia.
Qed.

Lemma digitsAcc_of_uint (d : Decimal.uint) :
  Z.of_N (Pos.of_uint d) = digitsAcc d 0.
Proof.
  induction d; cbn [Pos.of_uint digitsAcc Z.of_N]; try reflexivity;
    try assumption; apply digitsAcc_of_uint_acc.
Qed.

Lemma digitsAcc_ge (d : Decimal.uint) (acc : Z) :
  0 <= acc -> acc <= digitsAcc d acc.
Proof.
  revert acc. induction d as [| d IH | d IH | d IH | d IH | d IH | d IH
                              | d IH | d IH | d IH | d IH];
    intros acc Hacc; cbn [digitsAcc]; [lia | ..];
    (etransitivity; [| apply IH]; lia).
Qed.

(** [ParseUint] reads a numeral as the number it denotes, as long as the
    number fits. *)
Lemma parseDigits_string_of_uint (maxVal : Z) (d : Decimal.uint) (acc : Z) :
  0 <= acc ->
  digitsAcc d acc <= 2 ^ 64 - 1 -> digitsAcc d acc <= maxVal ->
  parseDigits maxVal acc (NilEmpty.string_of_uint d) = (digitsAcc d acc, None).
Proof.
  revert acc. induction d as [| d IH | d IH | d IH | d IH | d IH | d IH
                              | d IH | d IH | d IH | d IH];
    intros acc Hacc H64 Hmax;
    cbn [NilEmpty.string_of_uint parseDigits digitsAcc] in *;
    [reflexivity | ..];
    match goal with
    | |- context [isDigit ?c] =>
        change (isDigit c) with true;
        let k := eval vm_compute in (byteOf c - 48) in
        change (byteOf c - 48) with k
    end;
    cbv zeta; cbn [negb];
    match type of H64 with
    | digitsAcc d ?a <= _ =>
        pose proof (digitsAcc_ge d a ltac:(lia)) as G;
        replace (acc * 10 + _) with a by lia;
        destruct (Z.geb_spec acc ((2 ^ 64 - 1) / 10 + 1)) as [B | B];
          [change ((2 ^ 64 - 1) / 10 + 1) with 1844674407370955162 in B; lia |];
        destruct (Z.gtb_spec a (2 ^ 64 - 1)); [lia |];
        destruct (Z.gtb_spec a maxVal); [lia |];
        cbn [orb]; apply IH; lia
    end.
Qed.

Lemma string_of_uint_to_uint (p : positive) :
  NilZero.string_of_uint (Pos.to_uint p) = NilEmpty.string_of_uint (Pos.to_uint p) /\
  exists c rest, NilEmpty.string_of_uint (Pos.to_uint p) = String c rest /\
                 isDigit c = true.
Proof.
  pose proof (DecimalPos.Unsigned.to_uint_nonnil p) as Hn.
  destruct (Pos.to_uint p); [congruence | ..];
    (split; [reflexivity |]); cbn [NilEmpty.string_of_uint];
    eexists _, _; (split; [reflexivity |]); reflexivity.
Qed.

Lemma digitsAcc_to_uint (p : positive) : digitsAcc (Pos.to_uint p) 0 = Z.pos p.
Proof.
  rewrite <- digitsAcc_of_uint, DecimalPos.Unsigned.of_to. reflexivity.
Qed.

(** Round trip: [ParseUint] reads back what [formatDecimal] writes. *)
Lemma ParseUint_formatDecimal (n : Z) :
  0 <= n <= 2 ^ 64 - 1 -> ParseUint (formatDecimal n) 64 = (n, None).
Proof.
  intros Hn. unfold formatDecimal. destruct n as [| p | p]; [reflexivity | | lia].
  cbn [Z.to_int NilZero.string_of_int].
  destruct (string_of_uint_to_uint p) as (-> & c & rest & Hs & _).
  unfold ParseUint. rewrite Hs, <- Hs.
  change (2 ^ (if 64 =? 0 then IntSize else 64) - 1) with (2 ^ 64 - 1).
  rewrite parseDigits_string_of_uint; rewrite ?digitsAcc_to_uint;
    [reflexivity | lia ..].
Qed.

(** Round trip: [ParseInt] and [Atoi] read back what [formatDecimal]
    writes. *)
Lemma ParseInt_formatDecimal (n bitSize : Z) :
  bitSize = 0 \/ bitSize = 64 -> inInt64 n ->
  ParseInt (formatDecimal n) bitSize = (n, None).
Proof.
  unfold inInt64. intros Hb Hn. unfold formatDecimal.
  assert (Hbits : (if bitSize =? 0 then IntSize else bitSize) = 64)
    by (destruct Hb as [-> | ->]; reflexivity).
  destruct n as [| p | p].
  - destruct Hb as [-> | ->]; reflexivity.
  - cbn [Z.to_int NilZero.string_of_int].
    destruct (string_of_uint_to_uint p) as (-> & c & rest & Hs & Hd).
    rewrite Hs. unfold ParseInt. rewrite Hbits.
    assert (Hc : (byteOf c =? 43) || (byteOf c =? 45) = false).
    { unfold isDigit in Hd. apply andb_true_iff in Hd as [H1 H2].
      apply Z.leb_le in H1, H2.
      destruct (Z.eqb_spec (byteOf c) 43); [lia |].
      destruct (Z.eqb_spec (byteOf c) 45); [lia | reflexivity]. }
    rewrite Hc. apply orb_false_iff in Hc as [_ ->].
    unfold ParseUint.
    change (2 ^ (if 64 =? 0 then IntSize else 64) - 1) with (2 ^ 64 - 1).
    rewrite <- Hs, parseDigits_string_of_uint; rewrite ?digitsAcc_to_uint;
      [| lia ..].
    cbn [negb andb].
    destruct (Z.geb_spec (Z.pos p) (2 ^ (64 - 1))); [lia | reflexivity].
  - cbn [Z.to_int NilZero.string_of_int].
    destruct (string_of_uint_to_uint p) as (-> & c & rest & Hs & Hd).
    unfold ParseInt. rewrite Hbits.
    change (byteOf "-" =? 45) with true. rewrite orb_true_r.
    unfold ParseUint.
    change (2 ^ (if 64 =? 0 then IntSize else 64) - 1) with (2 ^ 64 - 1).
    rewrite parseDigits_string_of_uint; rewrite ?digitsAcc_to_uint; [| lia ..].
    rewrite Hs. cbn [negb andb].
    destruct (Z.gtb_spec (Z.pos p) (2 ^ (64 - 1))); [lia | reflexivity].
Qed.

Lemma parseDigits_ErrRange (maxVal : Z) (s : string) (n v : Z) :
  parseDigits maxVal n s = (v, Some ErrRange) -> v = maxVal.
Proof.
  revert n. induction s as [| c s' IH]; intros n H; cbn [parseDigits] in H.
  - discriminate H.
  - cbv zeta in H.
    destruct (negb (isDigit c)); [discriminate H |].
    destruct (n >=? _); [injection H as <-; reflexivity |].
    destruct (_ || _); [injection H as <-; reflexivity |].
    exact (IH _ H).
Qed.

(** What [ParseInt] and [Atoi] read fits an [int64]. *)
Lemma ParseInt_range (s : string) (bitSize v : Z) :
  bitSize = 0 \/ bitSize = 64 ->
  ParseInt s bitSize = (v, None) -> inInt64 v.
Proof.
  intros Hb H. unfold inInt64.
  assert (Hbits : (if bitSize =? 0 then IntSize else bitSize) = 64)
    by (destruct Hb as [-> | ->]; reflexivity).
  destruct s as [| c rest]; [discriminate H |].
  unfold ParseInt in H. rewrite Hbits in H.
  set (body := if _ || _ then rest else String c rest) in H.
  destruct (ParseUint body 64) as [un [[] |]] eqn:HU; [discriminate H | |].
  - assert (un = 2 ^ 64 - 1) as ->.
    { destruct body; [discriminate HU |]. unfold ParseUint in HU.
      apply parseDigits_ErrRange in HU. exact HU. }
    destruct (byteOf c =? 45); cbn in H; discriminate H.
  - apply ParseUint_range in HU.
    destruct (byteOf c =? 45); cbn [negb andb] in H.
    + destruct (Z.gtb_spec un (2 ^ (64 - 1))); [discriminate H |].
      injection H as <-. lia.
    + destruct (Z.geb_spec un (2 ^ (64 - 1))); [discriminate H |].
      injection H as <-. lia.
Qed.

Lemma Atoi_range (s : string) (v : Z) : Atoi s = (v, None) -> inInt64 v.
Proof. apply ParseInt_range. left. reflexivity. Qed.

Lemma Atoi_ParseInt (s : string) : Atoi s = ParseInt s 64.
Proof. destruct s; reflexivity. Qed.

(** ** More on GoTimeToTS *)

Lemma GoTimeToTS_from_epoch (t : Time) :
  0 <= nanos t < 2 ^ 63 ->
  GoTimeToTS t = (nanos t / Millisecond) * 2 ^ epochShiftBits.
Proof.
  intros H.
  rewrite GoTimeToTS_eq by (unfold inInt64; lia).
  pose proof (quot_Millisecond_bound (nanos t) ltac:(unfold inInt64; lia)) as B.
  unfold goDiv in *. rewrite Z.quot_div_nonneg in * by (unfold Millisecond; lia).
  assert (0 <= nanos t / Millisecond)
    by (apply Z.div_pos; unfold Millisecond; lia).
  unfold epochShiftBits. rewrite Z.mod_small by lia. reflexivity.
Qed.

(** From the epoch on, the timestamp is the count of milliseconds shifted
    left: shifting it back gives the milliseconds of the instant. *)
Theorem GoTimeToTS_physical_part (t : Time) :
  0 <= nanos t < 2 ^ 63 ->
  GoTimeToTS t = (nanos t / Millisecond) * 2 ^ epochShiftBits /\
  Z.shiftr (GoTimeToTS t) epochShiftBits = nanos t / Millisecond.
Proof.
  intros H. pose proof (GoTimeToTS_from_epoch t H) as E.
  split; [exact E |].
  rewrite E, Z.shiftr_div_pow2 by (unfold epochShiftBits; lia).
  apply Z.div_mul. unfold epochShiftBits. lia.
Qed.

Lemma GoTimeToTS_physical_part_witness :
  Z.shiftr (GoTimeToTS (mkTime 1500000000 123456789)) epochShiftBits =
  1500000000123.
Proof.
  rewrite (proj2 (GoTimeToTS_physical_part (mkTime 1500000000 123456789)
                    ltac:(unfold nanos; simpl; lia))).
  reflexivity.
Defined.

(** From the epoch on, two instants have the same timestamp exactly when
    they fall in the same millisecond, and a later millisecond leaves the
    whole logical part of [2 ^ epochShiftBits] values in between. *)
Theorem GoTimeToTS_millisecond_resolution (t1 t2 : Time) :
  0 <= nanos t1 < 2 ^ 63 -> 0 <= nanos t2 < 2 ^ 63 ->
  (GoTimeToTS t1 = GoTimeToTS t2 <->
   nanos t1 / Millisecond = nanos t2 / Millisecond) /\
  (nanos t1 / Millisecond < nanos t2 / Millisecond ->
   GoTimeToTS t1 + 2 ^ epochShiftBits <= GoTimeToTS t2).
Proof.
  intros H1 H2.
  rewrite (GoTimeToTS_from_epoch t1 H1), (GoTimeToTS_from_epoch t2 H2). unfold epochShiftBits. split; [split |]; lia.
Qed.

Lemma GoTimeToTS_millisecond_resolution_witness :
  GoTimeToTS (mkTime 7 1000) = GoTimeToTS (mkTime 7 999999) /\
  GoTimeToTS (mkTime 7 999999) + 2 ^ epochShiftBits <= GoTimeToTS (mkTime 7 1000000).
Proof.
  split.
  - apply (proj1 (GoTimeToTS_millisecond_resolution (mkTime 7 1000)
                    (mkTime 7 999999)
                    ltac:(unfold nanos; simpl; lia)
                    ltac:(unfold nanos; simpl; lia))).
    reflexivity.
  - apply (proj2 (GoTimeToTS_millisecond_resolution (mkTime 7 999999)
                    (mkTime 7 1000000)
                    ltac:(unfold nanos; simpl; lia)
                    ltac:(unfold nanos; simpl; lia))).
    vm_compute. reflexivity.
Defined.

(** An instant one millisecond or more before the epoch has a timestamp
    above that of every instant from the epoch on; an instant less than a
    millisecond away from the epoch, on either side, has timestamp 0. *)
Theorem GoTimeToTS_before_epoch (t : Time) :
  inInt64 (nanos t) ->
  (nanos t <= - Millisecond ->
   2 ^ 63 <= GoTimeToTS t /\
   forall t', 0 <= nanos t' < 2 ^ 63 -> GoTimeToTS t' < GoTimeToTS t) /\
  (- Millisecond < nanos t < Millisecond -> GoTimeToTS t = 0).
Proof.
  intros R. rewrite GoTimeToTS_eq by exact R.
  pose proof (quot_Millisecond_bound _ R) as B.
  pose proof (quot_Millisecond_sign (nanos t)) as [P N].
  split.
  - intros Hneg. specialize (N Hneg).
    set (m := goDiv (nanos t) Millisecond) in *.
    assert (E : (m * 2 ^ 18) mod 2 ^ 64 = m * 2 ^ 18 + 2 ^ 64).
    { symmetry. apply (Z.mod_unique _ _ (-1)); lia. }
    rewrite E. split; [lia |].
    intros t' H'. rewrite (GoTimeToTS_from_epoch t' H').
    assert (nanos t' / Millisecond < 2 ^ 44).
    { apply Z.div_lt_upper_bound; unfold Millisecond; lia. }
    unfold epochShiftBits. lia.
  - intros Hsmall.
    assert (goDiv (nanos t) Millisecond = 0) as ->.
    { unfold goDiv. apply Z.quot_small_iff; unfold Millisecond in *; lia. }
    reflexivity.
Qed.

Lemma GoTimeToTS_before_epoch_witness :
  GoTimeToTS (mkTime 1 0) < GoTimeToTS (mkTime (-1) 0) /\
  GoTimeToTS (mkTime (-1) 999999999) = 0.
Proof.
  split.
  - apply (proj1 (GoTimeToTS_before_epoch (mkTime (-1) 0)
                    ltac:(unfold inInt64, nanos; simpl; lia)));
      unfold Millisecond, nanos; simpl; lia.
  - apply (proj2 (GoTimeToTS_before_epoch (mkTime (-1) 999999999)
                    ltac:(unfold inInt64, nanos; simpl; lia)));
      unfold Millisecond, nanos; simpl; lia.
Defined.

(** ** More on ValidateSetSystemVar *)

Ltac walk_validate H :=
  repeat lazymatch type of H with
  | (if ?b then _ else _) = _ => destruct b eqn:?
  | (match ?x with (_, _) => _ end) = _ => destruct x as [? [? |]] eqn:?
  | (match ?x with Some _ => _ | None => _ end) = _ => destruct x eqn:?
  end.

Ltac replay_tests :=
  cbv iota;
  repeat match goal with
  | E : ?t = _ |- context [?t] => rewrite E; cbv iota
  end.

Lemma Validate_fixed_point
    (SysVars : gmap string SysVar) (unicodeLower : string -> string)
    (vars vars' vars2 : SessionVars) (name value ret : string) :
  EqualFold value "DEFAULT" = false ->
  ValidateSetSystemVar SysVars unicodeLower vars name value = (vars', (ret, None)) ->
  ValidateSetSystemVar SysVars unicodeLower vars2 name ret = (vars2, (ret, None)).
Proof.
  intros Hd H.
  unfold ValidateSetSystemVar in H |- *. rewrite Hd in H.
  walk_validate H; unfold truncated in H; try discriminate H;
    injection H as <- <-;
    first [ reflexivity | replay_tests; reflexivity ].
Qed.

(** What the validation returns is a fixed point: validated again, in any
    session, a returned value comes back as it is, with no warning.  (The
    word DEFAULT is set apart: it returns the default of the catalog,
    which the validation does not look at.) *)
Theorem ValidateSetSystemVar_idempotent
    (SysVars : gmap string SysVar) (unicodeLower : string -> string)
    (vars vars' vars2 : SessionVars) (name value ret : string) :
  upperASCII value <> "DEFAULT" ->
  ValidateSetSystemVar SysVars unicodeLower vars name value = (vars', (ret, None)) ->
  ValidateSetSystemVar SysVars unicodeLower vars2 name ret = (vars2, (ret, None)).
Proof.
  intros Hd. apply Validate_fixed_point.
  apply (EqualFold_not_casing "DEFAULT" value eq_refl). exact Hd.
Qed.

(** Whatever the outcome, a validation leaves the overlay, the
    transaction context, the snapshot timestamp and the accessor of the
    global store as they are; the warnings are as they were, or, on
    success only, have one TruncatedWrongValue warning for the name and
    the value appended. *)
Theorem ValidateSetSystemVar_frame
    (SysVars : gmap string SysVar) (unicodeLower : string -> string)
    (vars : SessionVars) (name value : string) :
  let r := ValidateSetSystemVar SysVars unicodeLower vars name value in
  systems (fst r) = systems vars /\
  TxnCtx (fst r) = TxnCtx vars /\
  SnapshotTS (fst r) = SnapshotTS vars /\
  globalVars (fst r) = globalVars vars /\
  (warnings (StmtCtx (fst r)) = warnings (StmtCtx vars) \/
   snd (snd r) = None /\
   warnings (StmtCtx (fst r)) =
     (warnings (StmtCtx vars) ++
      [GenByArgs ErrTruncatedWrongValue [name; value]])%list).
Proof.
  intros r. subst r.
  pose proof (Validate_outcome SysVars unicodeLower vars name value) as O.
  unfold validateOutcome in O.
  destruct (ValidateSetSystemVar _ _ _ _ _) as [vars' [ret [err |]]];
    cbn [fst snd] in *.
  - destruct O as [-> _]. auto 6.
  - destruct O as [-> | ->]; cbn; auto 7.
Qed.

(** Each bounded variable follows the clamp-and-warn rule with its
    bounds. *)
Lemma bounded_variable_rule
    (SysVars : gmap string SysVar) (unicodeLower : string -> string)
    (vars : SessionVars) (name value : string) (unsigned : bool) (lo hi : Z) :
  In (name, (unsigned, (lo, hi))) clampBounds ->
  EqualFold value "DEFAULT" = false ->
  ValidateSetSystemVar SysVars unicodeLower vars name value =
    clampAndWarn unsigned lo hi vars name value.
Proof.
  intros Hin Hd. unfold clampBounds in Hin. cbn [In] in Hin.
  repeat (destruct Hin as [Hin | Hin];
          [injection Hin as <- <- <- <-; unfold ValidateSetSystemVar;
           rewrite Hd; try reflexivity |]); try contradiction.
  - (* flush_time: no upper bound in the code *)
    unfold clampAndWarn, parseAs.
    change (Atoi value) with (ParseInt value 64).
    destruct (ParseInt value 64) as [v [e |]] eqn:HP; [reflexivity |].
    apply ParseInt_range in HP; [| right; reflexivity]. unfold inInt64 in HP.
    destruct (v <? 0); [reflexivity |].
    destruct (Z.gtb_spec v (2 ^ 63 - 1)); [lia | reflexivity].
  - (* interactive_timeout: no upper bound in the code *)
    unfold clampAndWarn, parseAs.
    change (Atoi value) with (ParseInt value 64).
    destruct (ParseInt value 64) as [v [e |]] eqn:HP; [reflexivity |].
    apply ParseInt_range in HP; [| right; reflexivity]. unfold inInt64 in HP.
    destruct (v <? 1); [reflexivity |].
    destruct (Z.gtb_spec v (2 ^ 63 - 1)); [lia | reflexivity].
Qed.

Lemma clampBounds_literals (name : string) (unsigned : bool) (lo hi : Z) :
  In (name, (unsigned, (lo, hi))) clampBounds ->
  lo <= hi /\
  parseAs unsigned (formatDecimal lo) = (lo, None) /\
  parseAs unsigned (formatDecimal hi) = (hi, None) /\
  EqualFold (formatDecimal lo) "DEFAULT" = false /\
  EqualFold (formatDecimal hi) "DEFAULT" = false.
Proof.
  intros Hin. unfold clampBounds in Hin. cbn [In] in Hin.
  repeat (destruct Hin as [Hin | Hin];
          [injection Hin as <- <- <- <-;
           repeat split; try (vm_compute; congruence) |]);
    contradiction.
Qed.

(** For each bounded variable, a value other than the word DEFAULT that
    the validation accepts was read as a number [w]; the value returned
    reads as [w] clamped into the bounds.  When [w] is within the bounds
    the value comes back as it is and the session is unchanged; when it is
    not, the session has one more warning. *)
Theorem bounded_variable_accepts_clamped
    (SysVars : gmap string SysVar) (unicodeLower : string -> string)
    (vars vars' : SessionVars) (name value ret : string)
    (unsigned : bool) (lo hi : Z) :
  In (name, (unsigned, (lo, hi))) clampBounds ->
  upperASCII value <> "DEFAULT" ->
  ValidateSetSystemVar SysVars unicodeLower vars name value = (vars', (ret, None)) ->
  exists w,
    parseAs unsigned value = (w, None) /\
    parseAs unsigned ret = (Z.max lo (Z.min hi w), None) /\
    (lo <= w <= hi -> ret = value /\ vars' = vars) /\
    (~ lo <= w <= hi -> vars' = warned vars name value).
Proof.
  intros Hin Hd H.
  apply (EqualFold_not_casing "DEFAULT" value eq_refl) in Hd.
  rewrite (bounded_variable_rule _ _ _ _ _ _ _ _ Hin Hd) in H.
  destruct (clampBounds_literals _ _ _ _ Hin) as (Hle & Plo & Phi & _).
  unfold clampAndWarn in H.
  destruct (parseAs unsigned value) as [w [e |]] eqn:HP; [discriminate H |].
  exists w. split; [reflexivity |].
  destruct (Z.ltb_spec w lo).
  - injection H as <- <-. rewrite Plo.
    repeat split; try (f_equal; lia); try lia; reflexivity.
  - rewrite Z.gtb_ltb in H. destruct (Z.ltb_spec hi w).
    + injection H as <- <-. rewrite Phi.
      repeat split; try (f_equal; lia); try lia; reflexivity.
    + injection H as <- <-. rewrite HP.
      repeat split; try (f_equal; lia); try lia; reflexivity.
Qed.

Lemma bounded_variable_accepts_clamped_witness :
  exists w,
    parseAs false "250000" = (w, None) /\
    parseAs false "100000" = (Z.max 1 (Z.min 100000 w), None) /\
    (1 <= w <= 100000 -> "100000" = "250000" /\
       warned exampleVars MaxConnections "250000" = exampleVars) /\
    (~ 1 <= w <= 100000 ->
       warned exampleVars MaxConnections "250000" =
       warned exampleVars MaxConnections "250000").
Proof.
  apply (bounded_variable_accepts_clamped exampleSysVars exampleUnicodeLower
           exampleVars (warned exampleVars MaxConnections "250000")
           MaxConnections "250000" "100000" false 1 100000).
  - unfold clampBounds. cbn [In]. do 4 right. left. reflexivity.
  - vm_compute. congruence.
  - vm_compute. reflexivity.
Defined.

(** A bounded variable refuses exactly the values that do not parse as
    its kind of number, with WrongTypeForVar, and then leaves the session
    as it is. *)
Theorem bounded_variable_refuses_unparsed
    (SysVars : gmap string SysVar) (unicodeLower : string -> string)
    (vars : SessionVars) (name value : string)
    (unsigned : bool) (lo hi : Z) :
  In (name, (unsigned, (lo, hi))) clampBounds ->
  upperASCII value <> "DEFAULT" ->
  (snd (parseAs unsigned value) <> None <->
   ValidateSetSystemVar SysVars unicodeLower vars name value =
     (vars, (value, Some (GenByArgs ErrWrongTypeForVar [name])))) /\
  (snd (parseAs unsigned value) = None <->
   snd (snd (ValidateSetSystemVar SysVars unicodeLower vars name value)) = None).
Proof.
  intros Hin Hd.
  apply (EqualFold_not_casing "DEFAULT" value eq_refl) in Hd.
  rewrite (bounded_variable_rule _ _ _ _ _ _ _ _ Hin Hd).
  unfold clampAndWarn.
  destruct (parseAs unsigned value) as [w [e |]]; cbn [snd].
  - split; split; intros; congruence.
  - destruct (w <? lo); [| destruct (w >? hi)]; cbn [snd];
      split; split; intros; congruence.
Qed.

Lemma bounded_variable_refuses_unparsed_witness :
  ValidateSetSystemVar exampleSysVars exampleUnicodeLower exampleVars
      MaxSortLength "12k" =
    (exampleVars, ("12k", Some (GenByArgs ErrWrongTypeForVar [MaxSortLength]))).
Proof.
  apply (proj1 (bounded_variable_refuses_unparsed exampleSysVars
                  exampleUnicodeLower exampleVars MaxSortLength "12k"
                  false 4 8388608
                  ltac:(unfold clampBounds; cbn [In]; do 5 right; left; reflexivity)
                  ltac:(vm_compute; congruence))).
  vm_compute. congruence.
Defined.

Lemma ValidateSetSystemVar_idempotent_witness :
  ValidateSetSystemVar exampleSysVars exampleUnicodeLower exampleVars
      DelayKeyWrite "ON" = (exampleVars, ("ON", None)).
Proof.
  apply (ValidateSetSystemVar_idempotent exampleSysVars exampleUnicodeLower
           exampleVars exampleVars exampleVars DelayKeyWrite "on" "ON").
  - vm_compute. congruence.
  - vm_compute. reflexivity.
Defined.

(** ** Enumerations and booleans *)

Lemma upperWordByte_fold (tr sr : ascii) :
  upperWordByte tr = true -> upperByte sr = tr -> asciiFoldEq sr tr = true.
Proof.
  intros H <-.
  destruct sr as [[] [] [] [] [] [] [] []]; vm_compute in H; try discriminate H;
    reflexivity.
Qed.

(** Every spelling of a word in another casing folds to the word (for a
    word with K or S, so do the spellings with the Kelvin sign or the
    long s). *)
Lemma EqualFold_of_upperASCII (t : string) :
  upperWord t = true -> forall s, upperASCII s = t -> EqualFold s t = true.
Proof.
  induction t as [| tr t' IH]; intros Hw s Hs.
  - destruct s; [reflexivity | discriminate Hs].
  - cbn in Hw. apply andb_true_iff in Hw as [Hc Ht].
    destruct s as [| sr s']; [discriminate Hs |].
    cbn [upperASCII mapBytes] in Hs. injection Hs as Hb Hs'.
    cbn [EqualFold]. rewrite (upperWordByte_fold tr sr Hc Hb).
    apply IH; assumption.
Qed.

(** [TiDBOptOn] holds of ON in any casing and of "1", and of nothing
    else. *)
Theorem TiDBOptOn_spec (opt : string) :
  TiDBOptOn opt = true <-> upperASCII opt = "ON" \/ opt = "1".
Proof.
  unfold TiDBOptOn.
  rewrite orb_true_iff, (EqualFold_casing "ON" opt eq_refl), String.eqb_eq.
  reflexivity.
Qed.

(** The strict booleans: ON in any casing and "1" become "1", OFF in any
    casing and "0" become "0", and any other value but the word DEFAULT
    fails with WrongValueForVar; the session is unchanged. *)
Theorem strict_boolean_rule
    (SysVars : gmap string SysVar) (unicodeLower : string -> string)
    (vars : SessionVars) (name value : string) :
  In name strictBooleans ->
  upperASCII value <> "DEFAULT" ->
  let r := ValidateSetSystemVar SysVars unicodeLower vars name value in
  (upperASCII value = "ON" \/ value = "1" -> r = (vars, ("1", None))) /\
  (upperASCII value = "OFF" \/ value = "0" -> r = (vars, ("0", None))) /\
  (upperASCII value <> "ON" -> value <> "1" ->
   upperASCII value <> "OFF" -> value <> "0" ->
   r = (vars, (value, Some (GenByArgs ErrWrongValueForVar [name; value])))).
Proof.
  intros Hin Hd r. subst r.
  apply (EqualFold_not_casing "DEFAULT" value eq_refl) in Hd.
  assert (E : ValidateSetSystemVar SysVars unicodeLower vars name value =
              if EqualFold value "ON" || (value =s? "1") then (vars, ("1", None))
              else if EqualFold value "OFF" || (value =s? "0") then (vars, ("0", None))
              else (vars, (value, Some (GenByArgs ErrWrongValueForVar [name; value])))).
  { unfold strictBooleans in Hin. cbn [In] in Hin.
    repeat (destruct Hin as [<- | Hin];
            [unfold ValidateSetSystemVar; rewrite Hd; reflexivity |]).
    contradiction. }
  rewrite E.
  rewrite (EqualFold_upperASCII "ON"), (EqualFold_upperASCII "OFF") by reflexivity.
  destruct (String.eqb_spec (upperASCII value) "ON") as [On | On];
  destruct (String.eqb_spec value "1") as [E1 | E1];
  destruct (String.eqb_spec (upperASCII value) "OFF") as [Off | Off];
  destruct (String.eqb_spec value "0") as [E0 | E0];
  cbn [orb]; subst; repeat split; intros; try reflexivity;
    repeat match goal with
    | H : _ \/ _ |- _ => destruct H
    end;
    try congruence; try discriminate.
Qed.

Lemma strict_boolean_rule_witness :
  ValidateSetSystemVar exampleSysVars exampleUnicodeLower exampleVars
      ForeignKeyChecks "Off" = (exampleVars, ("0", None)).
Proof.
  apply (strict_boolean_rule exampleSysVars exampleUnicodeLower exampleVars
           ForeignKeyChecks "Off"
           ltac:(unfold strictBooleans; cbn [In]; do 11 right; left; reflexivity)
           ltac:(vm_compute; congruence)).
  left. reflexivity.
Defined.

(** The loose booleans: a value other than the word DEFAULT is accepted
    exactly when it is ON or OFF in any casing, "1" or "0"; it comes back
    as it was written, not as a canonical token, and [TiDBOptOn] then
    tells the two kinds apart. *)
Theorem loose_boolean_rule
    (SysVars : gmap string SysVar) (unicodeLower : string -> string)
    (vars : SessionVars) (name value : string) :
  In name looseBooleans ->
  upperASCII value <> "DEFAULT" ->
  let r := ValidateSetSystemVar SysVars unicodeLower vars name value in
  ((upperASCII value = "ON" \/ value = "1") \/
   (upperASCII value = "OFF" \/ value = "0") ->
   r = (vars, (value, None))) /\
  (~ ((upperASCII value = "ON" \/ value = "1") \/
      (upperASCII value = "OFF" \/ value = "0")) ->
   r = (vars, (value, Some (GenByArgs ErrWrongValueForVar [name; value])))) /\
  (snd (snd r) = None ->
   (TiDBOptOn (fst (snd r)) = true <-> upperASCII value = "ON" \/ value = "1") /\
   (TiDBOptOn (fst (snd r)) = false <-> upperASCII value = "OFF" \/ value = "0")).
Proof.
  intros Hin Hd r. subst r.
  apply (EqualFold_not_casing "DEFAULT" value eq_refl) in Hd.
  assert (E : ValidateSetSystemVar SysVars unicodeLower vars name value =
              if EqualFold value "ON" || (value =s? "1") ||
                 EqualFold value "OFF" || (value =s? "0")
              then (vars, (value, None))
              else (vars, (value, Some (GenByArgs ErrWrongValueForVar [name; value])))).
  { unfold looseBooleans in Hin. cbn [In] in Hin.
    repeat (destruct Hin as [<- | Hin];
            [unfold ValidateSetSystemVar; rewrite Hd; reflexivity |]).
    contradiction. }
  rewrite E. clear E. unfold TiDBOptOn.
  rewrite !(EqualFold_upperASCII "ON"), !(EqualFold_upperASCII "OFF") by reflexivity.
  destruct (String.eqb_spec (upperASCII value) "ON") as [On | On];
  destruct (String.eqb_spec value "1") as [E1 | E1];
  destruct (String.eqb_spec (upperASCII value) "OFF") as [Off | Off];
  destruct (String.eqb_spec value "0") as [E0 | E0];
  try congruence;
  try (exfalso; subst value;
       match goal with
       | H : upperASCII _ = _ |- _ => vm_compute in H; discriminate H
       end);
  cbn [orb fst snd];
  rewrite ?(proj2 (String.eqb_eq _ _) On), ?(proj2 (String.eqb_neq _ _) On),
          ?(proj2 (String.eqb_eq _ _) E1), ?(proj2 (String.eqb_neq _ _) E1);
  cbn [orb];
  intuition (try discriminate; try congruence).
Qed.

Lemma loose_boolean_rule_witness :
  ValidateSetSystemVar exampleSysVars exampleUnicodeLower exampleVars
      AutocommitVar "oFf" = (exampleVars, ("oFf", None)).
Proof.
  apply (loose_boolean_rule exampleSysVars exampleUnicodeLower exampleVars
           AutocommitVar "oFf"
           ltac:(unfold looseBooleans; cbn [In]; left; reflexivity)
           ltac:(vm_compute; congruence)).
  right. left. reflexivity.
Defined.

(** ** Integer options *)

(** [tidbOptPositiveInt32] gives the default, or a positive number that
    fits an [int]; it reads back a positive number written in decimal. *)
Theorem tidbOptPositiveInt32_spec (opt : string) (defaultVal : Z) :
  (tidbOptPositiveInt32 opt defaultVal = defaultVal \/
   0 < tidbOptPositiveInt32 opt defaultVal < 2 ^ 63) /\
  (forall v, Atoi opt = (v, None) -> 0 < v ->
     tidbOptPositiveInt32 opt defaultVal = v) /\
  (forall n, 0 < n < 2 ^ 63 ->
     tidbOptPositiveInt32 (formatDecimal n) defaultVal = n).
Proof.
  unfold tidbOptPositiveInt32. split; [| split].
  - destruct (Atoi opt) as [v [e |]] eqn:HA; cbn [notNil orb]; [left; reflexivity |].
    apply Atoi_range in HA. unfold inInt64 in HA.
    destruct (Z.leb_spec v 0); [left; reflexivity | right; lia].
  - intros v -> Hv. cbn [notNil orb].
    destruct (Z.leb_spec v 0); [lia | reflexivity].
  - intros n Hn. unfold Atoi.
    rewrite ParseInt_formatDecimal by (unfold inInt64; auto; lia).
    cbn [notNil orb]. destruct (Z.leb_spec n 0); [lia | reflexivity].
Qed.

(** [tidbOptInt64] gives the default, or the [int64] that the option
    reads as; it reads back an [int64] written in decimal. *)
Theorem tidbOptInt64_spec (opt : string) (defaultVal : Z) :
  (inInt64 defaultVal -> inInt64 (tidbOptInt64 opt defaultVal)) /\
  (forall v, ParseInt opt 64 = (v, None) -> tidbOptInt64 opt defaultVal = v) /\
  (snd (ParseInt opt 64) <> None -> tidbOptInt64 opt defaultVal = defaultVal) /\
  (forall n, inInt64 n -> tidbOptInt64 (formatDecimal n) defaultVal = n).
Proof.
  unfold tidbOptInt64. split; [| split; [| split]].
  - intros Hd. destruct (ParseInt opt 64) as [v [e |]] eqn:HP; [exact Hd |].
    apply (ParseInt_range opt 64 v); [right; reflexivity | exact HP].
  - intros v ->. reflexivity.
  - destruct (ParseInt opt 64) as [v [e |]]; cbn [snd]; congruence.
  - intros n Hn. rewrite ParseInt_formatDecimal by auto. reflexivity.
Qed.

(** The positive integers: a value other than the word DEFAULT is
    accepted exactly when [Atoi] reads it as a number above 0; then it
    comes back as it is, and [tidbOptPositiveInt32] reads that number from
    it, never the default.  A value that does not parse fails with
    WrongTypeForVar, a number that is not positive with
    WrongValueForVar. *)
Theorem positive_integer_rule
    (SysVars : gmap string SysVar) (unicodeLower : string -> string)
    (vars : SessionVars) (name value : string) :
  In name positiveIntegers ->
  upperASCII value <> "DEFAULT" ->
  let r := ValidateSetSystemVar SysVars unicodeLower vars name value in
  (forall v, Atoi value = (v, None) -> 0 < v ->
     r = (vars, (value, None)) /\
     forall defaultVal, tidbOptPositiveInt32 (fst (snd r)) defaultVal = v) /\
  (forall v, Atoi value = (v, None) -> v <= 0 ->
     r = (vars, (value, Some (GenByArgs ErrWrongValueForVar [name; value])))) /\
  (snd (Atoi value) <> None ->
     r = (vars, (value, Some (GenByArgs ErrWrongTypeForVar [name])))).
Proof.
  intros Hin Hd r. subst r.
  apply (EqualFold_not_casing "DEFAULT" value eq_refl) in Hd.
  assert (E : ValidateSetSystemVar SysVars unicodeLower vars name value =
              match Atoi value with
              | (_, Some _) =>
                  (vars, (value, Some (GenByArgs ErrWrongTypeForVar [name])))
              | (v, None) =>
                  if v <=? 0
                  then (vars, (value, Some (GenByArgs ErrWrongValueForVar [name; value])))
                  else (vars, (value, None))
              end).
  { unfold positiveIntegers in Hin. cbn [In] in Hin.
    repeat (destruct Hin as [<- | Hin];
            [unfold ValidateSetSystemVar; rewrite Hd; reflexivity |]).
    contradiction. }
  rewrite E. clear E. split; [| split].
  - intros v Hv Hpos. rewrite Hv.
    destruct (Z.leb_spec v 0); [lia |]. split; [reflexivity |].
    intros defaultVal. cbn [fst snd].
    unfold tidbOptPositiveInt32. rewrite Hv. cbn [notNil orb].
    destruct (Z.leb_spec v 0); [lia | reflexivity].
  - intros v Hv Hle. rewrite Hv.
    destruct (Z.leb_spec v 0); [reflexivity | lia].
  - destruct (Atoi value) as [v [e |]]; cbn [snd]; congruence.
Qed.

Lemma positive_integer_rule_witness :
  ValidateSetSystemVar exampleSysVars exampleUnicodeLower exampleVars
      TiDBGeneralLog "0" =
    (exampleVars, ("0", Some (GenByArgs ErrWrongValueForVar [TiDBGeneralLog; "0"]))).
Proof.
  apply (proj1 (proj2 (positive_integer_rule exampleSysVars exampleUnicodeLower
                         exampleVars TiDBGeneralLog "0"
                         ltac:(unfold positiveIntegers; cbn [In]; do 14 right;
                               left; reflexivity)
                         ltac:(vm_compute; congruence))) 0);
    [reflexivity | lia].
Defined.

(** The signed integers: a value other than the word DEFAULT is accepted
    exactly when [ParseInt] reads it as an [int64]; then it comes back as
    it is and [tidbOptInt64] reads that number from it.  Any other value
    fails with WrongValueForVar, for the name alone. *)
Theorem signed_integer_rule
    (SysVars : gmap string SysVar) (unicodeLower : string -> string)
    (vars : SessionVars) (name value : string) :
  In name signedIntegers ->
  upperASCII value <> "DEFAULT" ->
  let r := ValidateSetSystemVar SysVars unicodeLower vars name value in
  (forall v, ParseInt value 64 = (v, None) ->
     r = (vars, (value, None)) /\ inInt64 v /\
     forall defaultVal, tidbOptInt64 (fst (snd r)) defaultVal = v) /\
  (snd (ParseInt value 64) <> None ->
     r = (vars, (value, Some (GenByArgs ErrWrongValueForVar [name])))).
Proof.
  intros Hin Hd r. subst r.
  apply (EqualFold_not_casing "DEFAULT" value eq_refl) in Hd.
  assert (E : ValidateSetSystemVar SysVars unicodeLower vars name value =
              match ParseInt value 64 with
              | (_, Some _) =>
                  (vars, (value, Some (GenByArgs ErrWrongValueForVar [name])))
              | (_, None) => (vars, (value, None))
              end).
  { unfold signedIntegers in Hin. cbn [In] in Hin.
    repeat (destruct Hin as [<- | Hin];
            [unfold ValidateSetSystemVar; rewrite Hd; reflexivity |]).
    contradiction. }
  rewrite E. clear E. split.
  - intros v Hv. rewrite Hv. split; [reflexivity |].
    split; [apply (ParseInt_range value 64 v); [right; reflexivity | exact Hv] |].
    intros defaultVal. cbn [fst snd]. unfold tidbOptInt64. rewrite Hv. reflexivity.
  - destruct (ParseInt value 64) as [v [e |]]; cbn [snd]; congruence.
Qed.

Lemma signed_integer_rule_witness :
  ValidateSetSystemVar exampleSysVars exampleUnicodeLower exampleVars
      TIDBMemQuotaQuery "-1" = (exampleVars, ("-1", None)).
Proof.
  apply (proj1 (signed_integer_rule exampleSysVars exampleUnicodeLower
                  exampleVars TIDBMemQuotaQuery "-1"
                  ltac:(unfold signedIntegers; cbn [In]; do 1 right;
                        left; reflexivity)
                  ltac:(vm_compute; congruence)) (-1)).
  reflexivity.
Defined.

(** ** Names without a rule *)

(** A name that is none of the names with a rule is not validated: any
    value but the word DEFAULT comes back as it is, with no error and no
    warning, whether the catalog has the name or not. *)
Theorem unlisted_name_passes
    (SysVars : gmap string SysVar) (unicodeLower : string -> string)
    (vars : SessionVars) (name value : string) :
  ~ In name validatedNames ->
  upperASCII value <> "DEFAULT" ->
  ValidateSetSystemVar SysVars unicodeLower vars name value =
    (vars, (value, None)).
Proof.
  intros Hn Hd.
  apply (EqualFold_not_casing "DEFAULT" value eq_refl) in Hd.
  assert (Hb : oneOf name validatedNames = false).
  { apply not_true_is_false. intros Ht. unfold oneOf in Ht.
    apply existsb_exists in Ht as (x & Hin & Heq).
    apply String.eqb_eq in Heq. subst x. contradiction. }
  unfold oneOf, validatedNames in Hb. cbn [existsb] in Hb.
  repeat match goal with
  | H : _ || _ = false |- _ => apply orb_false_iff in H as [? H]
  end.
  unfold ValidateSetSystemVar, oneOf. cbn [existsb].
  rewrite Hd. replay_tests. reflexivity.
Qed.

Lemma unlisted_name_passes_witness :
  ValidateSetSystemVar exampleSysVars exampleUnicodeLower exampleVars
      "no_such_variable" "anything" = (exampleVars, ("anything", None)).
Proof.
  apply (unlisted_name_passes exampleSysVars exampleUnicodeLower exampleVars
           "no_such_variable" "anything").
  - unfold validatedNames. cbn [In]. intros H.
    repeat (destruct H as [H | H]; [discriminate H |]). exact H.
  - vm_compute. congruence.
Defined.

Lemma tidbOptPositiveInt32_spec_witness :
  tidbOptPositiveInt32 "42" 16 = 42 /\ tidbOptPositiveInt32 (formatDecimal 7) 16 = 7.
Proof.
  split.
  - apply (proj1 (proj2 (tidbOptPositiveInt32_spec "42" 16)) 42);
      [reflexivity | lia].
  - apply (proj2 (proj2 (tidbOptPositiveInt32_spec "42" 16)) 7). lia.
Defined.

Lemma tidbOptInt64_spec_witness :
  tidbOptInt64 "-9" 5 = -9 /\ tidbOptInt64 "9x" 5 = 5.
Proof.
  split.
  - apply (proj1 (proj2 (tidbOptInt64_spec "-9" 5)) (-9)). reflexivity.
  - apply (proj1 (proj2 (proj2 (tidbOptInt64_spec "9x" 5)))).
    vm_compute. congruence.
Defined.

(** ** Session GTID tracking and the time zone *)

Lemma plainWordByte_fold (tr sr : ascii) :
  plainWordByte tr = true ->
  asciiFoldEq sr tr = Ascii.eqb (upperByte sr) tr /\
  isFoldS tr = false /\ isFoldK tr = false.
Proof.
  intros H. unfold plainWordByte in H. apply orb_true_iff in H as [H | H].
  - apply plainUpperByte_fold. exact H.
  - apply Z.eqb_eq in H.
    assert (tr = "_"%char) as ->.
    { rewrite <- (ascii_N_embedding tr). unfold byteOf in H.
      replace (N_of_ascii tr) with 95%N by lia. reflexivity. }
    (split; [| split; reflexivity]).
    destruct sr as [[] [] [] [] [] [] [] []]; vm_compute; reflexivity.
Qed.

Lemma EqualFold_plainWord (t : string) :
  plainWord t = true ->
  forall s, EqualFold s t = (upperASCII s =s? t).
Proof.
  induction t as [| tr t' IH]; intros Hp s.
  - destruct s; reflexivity.
  - cbn in Hp. apply andb_true_iff in Hp as [Hc Ht].
    destruct s as [| sr s'].
    + reflexivity.
    + pose proof (plainWordByte_fold tr sr Hc) as (Hf & HS & HK).
      cbn [EqualFold upperASCII mapBytes String.eqb].
      rewrite Hf, HS, HK, !andb_false_r.
      fold (upperASCII s'). rewrite (IH Ht s').
      destruct (Ascii.eqb (upperByte sr) tr); reflexivity.
Qed.

(** Session GTID tracking: OFF in any casing and "0" become "OFF",
    OWN_GTID in any casing and "1" become "OWN_GTID", ALL_GTIDS in any
    casing and "2" become "ALL_GTIDS"; a value that is accepted comes back
    as one of the three tokens, and a value that is refused fails with
    WrongValueForVar; the session is unchanged. *)
Theorem SessionTrackGtids_rule
    (SysVars : gmap string SysVar) (unicodeLower : string -> string)
    (vars : SessionVars) (value : string) :
  upperASCII value <> "DEFAULT" ->
  let r := ValidateSetSystemVar SysVars unicodeLower vars SessionTrackGtids value in
  (upperASCII value = "OFF" \/ value = "0" -> r = (vars, ("OFF", None))) /\
  (upperASCII value = "OWN_GTID" \/ value = "1" -> r = (vars, ("OWN_GTID", None))) /\
  (upperASCII value = "ALL_GTIDS" \/ value = "2" -> r = (vars, ("ALL_GTIDS", None))) /\
  fst r = vars /\
  (snd (snd r) = None -> In (fst (snd r)) ["OFF"; "OWN_GTID"; "ALL_GTIDS"]) /\
  (snd (snd r) <> None ->
   r = (vars, (value, Some (GenByArgs ErrWrongValueForVar [SessionTrackGtids; value])))).
Proof.
  intros Hd r. subst r.
  apply (EqualFold_not_casing "DEFAULT" value eq_refl) in Hd.
  assert (E : ValidateSetSystemVar SysVars unicodeLower vars SessionTrackGtids value =
              if EqualFold value "OFF" || (value =s? "0") then (vars, ("OFF", None))
              else if EqualFold value "OWN_GTID" || (value =s? "1")
                   then (vars, ("OWN_GTID", None))
              else if EqualFold value "ALL_GTIDS" || (value =s? "2")
                   then (vars, ("ALL_GTIDS", None))
              else (vars, (value, Some (GenByArgs ErrWrongValueForVar
                                          [SessionTrackGtids; value])))).
  { unfold ValidateSetSystemVar. rewrite Hd. reflexivity. }
  rewrite E. clear E.
  rewrite (EqualFold_plainWord "OFF"), (EqualFold_plainWord "OWN_GTID") by reflexivity.
  assert (All : upperASCII value = "ALL_GTIDS" -> EqualFold value "ALL_GTIDS" = true)
    by (apply (EqualFold_of_upperASCII "ALL_GTIDS"); reflexivity).
  destruct (String.eqb_spec (upperASCII value) "OFF") as [Off | Off];
  destruct (String.eqb_spec value "0") as [E0 | E0];
  destruct (String.eqb_spec (upperASCII value) "OWN_GTID") as [Own | Own];
  destruct (String.eqb_spec value "1") as [E1 | E1];
  destruct (String.eqb_spec value "2") as [E2 | E2];
  try congruence;
  try (exfalso; subst value;
       match goal with
       | H : upperASCII _ = _ |- _ => vm_compute in H; discriminate H
       end);
  cbn [orb fst snd]; rewrite ?orb_true_r, ?orb_false_r;
  try (destruct (EqualFold value "ALL_GTIDS") eqn:EA);
  cbn [fst snd];
  intuition (try discriminate; try congruence;
             try (cbn [In]; tauto);
             try (exfalso; subst value;
                  match goal with
                  | H : upperASCII _ = _ |- _ => vm_compute in H; discriminate H
                  end)).
Qed.

Lemma SessionTrackGtids_rule_witness :
  ValidateSetSystemVar exampleSysVars exampleUnicodeLower exampleVars
      SessionTrackGtids "own_gtid" = (exampleVars, ("OWN_GTID", None)).
Proof.
  apply (SessionTrackGtids_rule exampleSysVars exampleUnicodeLower exampleVars
           "own_gtid" ltac:(vm_compute; congruence)).
  left. reflexivity.
Defined.

(** ** Time zones *)

Section TimeZoneFacts.

Variable LoadLocation : string -> option Location.
Variable ParseDuration : string -> Z -> option Z.

(** [parseTimeZone] gives a location or fails with UnknownTimeZone for
    the string, never both and never neither.  SYSTEM in any casing is
    the zone of the process, before the zone database is asked; a name of
    the zone database is its zone, before the string is tried as an
    offset; the failure is that of a string that is none of these. *)
Theorem parseTimeZone_cases (s : string) :
  (upperASCII s = "SYSTEM" ->
   parseTimeZone LoadLocation ParseDuration s = (Some TimeLocal, None)) /\
  (forall loc, EqualFold s "SYSTEM" = false -> LoadLocation s = Some loc ->
   parseTimeZone LoadLocation ParseDuration s = (Some loc, None)) /\
  ((exists loc, parseTimeZone LoadLocation ParseDuration s = (Some loc, None)) \/
   parseTimeZone LoadLocation ParseDuration s =
     (None, Some (GenByArgs ErrUnknownTimeZone [s]))) /\
  (parseTimeZone LoadLocation ParseDuration s =
     (None, Some (GenByArgs ErrUnknownTimeZone [s])) <->
   EqualFold s "SYSTEM" = false /\ LoadLocation s = None /\
   (HasPrefix s "+" || HasPrefix s "-" = false \/
    ParseDuration (dropFirst s) 0 = None)).
Proof.
  unfold parseTimeZone. split; [| split; [| split]].
  - intros Hs. rewrite (EqualFold_of_upperASCII "SYSTEM" eq_refl s Hs). reflexivity.
  - intros loc -> ->. reflexivity.
  - destruct (EqualFold s "SYSTEM"); [left; eauto |].
    destruct (LoadLocation s); [left; eauto |].
    destruct (_ || _); [| right; reflexivity].
    destruct (ParseDuration _ _); [left; eauto | right; reflexivity].
  - destruct (EqualFold s "SYSTEM"); [split; [discriminate | intros [? _]; discriminate] |].
    destruct (LoadLocation s); [split; [discriminate | intros (_ & ? & _); discriminate] |].
    destruct (_ || _).
    + destruct (ParseDuration _ _);
        (split; [try discriminate; auto | intros (_ & _ & [? | ?]); try discriminate; auto]).
    + split; auto.
Qed.

(** An offset is read with its sign: when the zone database knows
    neither string, the zone of ["-" ++ x] is at the opposite offset of
    the zone of ["+" ++ x], the duration cut to whole seconds; both are
    named UTC. *)
Theorem parseTimeZone_offset_sign (x : string) (d : Z) :
  LoadLocation (String "+" x) = None ->
  LoadLocation (String "-" x) = None ->
  ParseDuration x 0 = Some d ->
  inInt64 d ->
  parseTimeZone LoadLocation ParseDuration (String "+" x) =
    (Some (FixedZone "UTC" (Z.quot d Second)), None) /\
  parseTimeZone LoadLocation ParseDuration (String "-" x) =
    (Some (FixedZone "UTC" (- Z.quot d Second)), None).
Proof.
  intros Lp Lm Hd Rd.
  assert (Hp : HasPrefix (String "+" x) "+" = true)
    by (unfold HasPrefix; cbn; destruct x; reflexivity).
  assert (Hm : HasPrefix (String "-" x) "-" = true)
    by (unfold HasPrefix; cbn; destruct x; reflexivity).
  assert (Q : inInt64 (Z.quot d Second) /\ inInt64 (- Z.quot d Second)).
  { unfold inInt64, Second in *. split; Z.quot_rem_to_equations; lia. }
  destruct Q as [Q1 Q2].
  unfold parseTimeZone.
  change (EqualFold (String "+" x) "SYSTEM") with false.
  change (EqualFold (String "-" x) "SYSTEM") with false.
  rewrite Lp, Lm, Hp, Hm, orb_true_r.
  cbn [orb dropFirst firstIs]. rewrite Hd. cbv zeta. unfold goDiv.
  change (byteOf "+" =? 45) with false.
  change (byteOf "-" =? 45) with true. cbv iota.
  rewrite (int64_small _ Q1), (int64_small _ Q2). split; reflexivity.
Qed.

(** The validation of a time zone never fails and never warns, and what
    it returns resolves to the same location as the value it was given:
    the spelling of SYSTEM is normalized, nothing else is touched. *)
Theorem TimeZone_validation_keeps_location
    (SysVars : gmap string SysVar) (unicodeLower : string -> string)
    (vars : SessionVars) (value : string) :
  upperASCII value <> "DEFAULT" ->
  let r := ValidateSetSystemVar SysVars unicodeLower vars TimeZone value in
  fst r = vars /\ snd (snd r) = None /\
  (fst (snd r) = "SYSTEM" \/ fst (snd r) = value) /\
  (upperASCII value = "SYSTEM" -> fst (snd r) = "SYSTEM") /\
  parseTimeZone LoadLocation ParseDuration (fst (snd r)) =
    parseTimeZone LoadLocation ParseDuration value.
Proof.
  intros Hd r. subst r.
  apply (EqualFold_not_casing "DEFAULT" value eq_refl) in Hd.
  assert (E : ValidateSetSystemVar SysVars unicodeLower vars TimeZone value =
              if EqualFold value "SYSTEM" then (vars, ("SYSTEM", None))
              else (vars, (value, None))).
  { unfold ValidateSetSystemVar. rewrite Hd. reflexivity. }
  rewrite E. clear E.
  pose proof (EqualFold_of_upperASCII "SYSTEM" eq_refl value) as Sys.
  destruct (EqualFold value "SYSTEM") eqn:ES; cbn [fst snd].
  - repeat split; auto. unfold parseTimeZone. rewrite ES. reflexivity.
  - repeat split; auto. intros Hs. specialize (Sys Hs). discriminate Sys.
Qed.

End TimeZoneFacts.

Lemma parseTimeZone_cases_witness :
  parseTimeZone exampleLoadLocation exampleParseDuration "System" =
    (Some TimeLocal, None) /\
  parseTimeZone exampleLoadLocation exampleParseDuration "Asia/Shanghai" =
    (Some (Zone "Asia/Shanghai"), None).
Proof.
  split.
  - apply (proj1 (parseTimeZone_cases exampleLoadLocation
                    exampleParseDuration "System")). reflexivity.
  - apply (proj1 (proj2 (parseTimeZone_cases exampleLoadLocation
                           exampleParseDuration "Asia/Shanghai")));
      reflexivity.
Defined.

Lemma parseTimeZone_offset_sign_witness :
  parseTimeZone exampleLoadLocation exampleParseDuration "+10:00" =
    (Some (FixedZone "UTC" 36000), None) /\
  parseTimeZone exampleLoadLocation exampleParseDuration "-10:00" =
    (Some (FixedZone "UTC" (-36000)), None).
Proof.
  apply (parseTimeZone_offset_sign exampleLoadLocation exampleParseDuration
           "10:00" (36000 * Second));
    try reflexivity.
  unfold inInt64, Second. lia.
Defined.

Lemma TimeZone_validation_keeps_location_witness :
  fst (snd (ValidateSetSystemVar exampleSysVars exampleUnicodeLower exampleVars
              TimeZone "system")) = "SYSTEM".
Proof.
  apply (TimeZone_validation_keeps_location exampleLoadLocation
           exampleParseDuration exampleSysVars exampleUnicodeLower exampleVars
           "system" ltac:(vm_compute; congruence)).
  reflexivity.
Defined.

(** ** The snapshot timestamp *)

Section SnapshotFacts.

Variable MysqlTime : Type.
Variable ParseTime :
  StatementContext -> string -> StatementContext * (MysqlTime * option Error).
Variable GoTime : MysqlTime -> Time * option Error.

(** The empty string clears the snapshot timestamp; a string that
    [ParseUint] reads sets it to that number, which fits a [uint64], and
    the timestamp parser is not asked; so a [uint64] written in decimal is
    set as it is. *)
Theorem setSnapshotTS_numeric (s : SessionVars) :
  setSnapshotTS MysqlTime ParseTime GoTime s "" = (withSnapshotTS s 0, None) /\
  (forall sVal tso, ParseUint sVal 64 = (tso, None) ->
     setSnapshotTS MysqlTime ParseTime GoTime s sVal = (withSnapshotTS s tso, None) /\
     0 <= tso < 2 ^ 64) /\
  (forall n, 0 <= n < 2 ^ 64 ->
     setSnapshotTS MysqlTime ParseTime GoTime s (formatDecimal n) =
       (withSnapshotTS s n, None)).
Proof.
  assert (Hnum : forall sVal tso, ParseUint sVal 64 = (tso, None) ->
     setSnapshotTS MysqlTime ParseTime GoTime s sVal = (withSnapshotTS s tso, None)).
  { intros sVal tso H. unfold setSnapshotTS.
    destruct sVal as [| c rest]; [discriminate H |].
    cbn [String.eqb]. rewrite H. reflexivity. }
  split; [reflexivity |]. split.
  - intros sVal tso H. split; [exact (Hnum _ _ H) |].
    apply ParseUint_range in H. lia.
  - intros n Hn. apply Hnum. apply ParseUint_formatDecimal. lia.
Qed.

(** A string that is not a number is read as a timestamp.  When the
    parser refuses it, the error comes back and the snapshot timestamp is
    as it was.  When the parser reads it, the snapshot timestamp becomes
    the timestamp of the instant that the conversion to a Go time gives,
    with its low [epochShiftBits] bits zero, also when that conversion
    reports an error, which is then returned. *)
Theorem setSnapshotTS_datetime (s : SessionVars) (sVal : string) :
  sVal <> "" ->
  snd (ParseUint sVal 64) <> None ->
  (forall sc t err, ParseTime (StmtCtx s) sVal = (sc, (t, Some err)) ->
     setSnapshotTS MysqlTime ParseTime GoTime s sVal = (withStmtCtx s sc, Some err) /\
     SnapshotTS (fst (setSnapshotTS MysqlTime ParseTime GoTime s sVal)) = SnapshotTS s) /\
  (forall sc t t1 err, ParseTime (StmtCtx s) sVal = (sc, (t, None)) ->
     GoTime t = (t1, err) ->
     setSnapshotTS MysqlTime ParseTime GoTime s sVal =
       (withSnapshotTS (withStmtCtx s sc) (GoTimeToTS t1), err) /\
     Z.land (SnapshotTS (fst (setSnapshotTS MysqlTime ParseTime GoTime s sVal)))
            (Z.ones epochShiftBits) = 0).
Proof.
  intros Hne Hnum.
  assert (E : setSnapshotTS MysqlTime ParseTime GoTime s sVal =
              match ParseTime (StmtCtx s) sVal with
              | (sc, (_, Some err)) => (withStmtCtx s sc, Some err)
              | (sc, (t, None)) =>
                  match GoTime t with
                  | (t1, err) =>
                      (withSnapshotTS (withStmtCtx s sc) (GoTimeToTS t1), err)
                  end
              end).
  { unfold setSnapshotTS.
    destruct (String.eqb_spec sVal ""); [contradiction |].
    destruct (ParseUint sVal 64) as [tso [e |]]; [reflexivity |].
    cbn [snd] in Hnum. congruence. }
  rewrite E. split.
  - intros sc t err ->. split; reflexivity.
  - intros sc t t1 err -> ->. split; [reflexivity |].
    cbn [fst SnapshotTS withSnapshotTS]. apply GoTimeToTS_low_bits.
Qed.

(** Setting the snapshot timestamp leaves the overlay, the transaction
    context and the accessor of the global store as they are. *)
Theorem setSnapshotTS_frame (s : SessionVars) (sVal : string) :
  let r := setSnapshotTS MysqlTime ParseTime GoTime s sVal in
  systems (fst r) = systems s /\
  TxnCtx (fst r) = TxnCtx s /\
  globalVars (fst r) = globalVars s /\
  (snd r = None -> StmtCtx (fst r) = StmtCtx s \/
                   exists t, ParseTime (StmtCtx s) sVal = (StmtCtx (fst r), (t, None))).
Proof.
  intros r. subst r. unfold setSnapshotTS.
  destruct (sVal =s? ""); [cbn; auto |].
  destruct (ParseUint sVal 64) as [tso [e |]]; [| cbn; auto].
  destruct (ParseTime (StmtCtx s) sVal) as [sc [t [err |]]] eqn:HP.
  - cbn. repeat split; auto. discriminate.
  - destruct (GoTime t) as [t1 err]. cbn. repeat split; auto.
    intros _. right. exists t. reflexivity.
Qed.

End SnapshotFacts.

Lemma setSnapshotTS_numeric_witness :
  setSnapshotTS Time exampleParseTime exampleGoTime exampleVars "400000000000000000" =
    (withSnapshotTS exampleVars 400000000000000000, None) /\
  0 <= 400000000000000000 < 2 ^ 64.
Proof.
  apply (proj1 (proj2 (setSnapshotTS_numeric Time exampleParseTime exampleGoTime
                         exampleVars))).
  reflexivity.
Defined.

Lemma setSnapshotTS_datetime_witness :
  SnapshotTS (fst (setSnapshotTS Time exampleParseTime exampleGoTime exampleVars
                     "2018-01-01 00:00:00")) = 397086503731200000 /\
  SnapshotTS (fst (setSnapshotTS Time exampleParseTime exampleGoTime exampleVars
                     "yesterday")) = SnapshotTS exampleVars.
Proof.
  split.
  - rewrite (proj1 (proj2 (setSnapshotTS_datetime Time exampleParseTime
                             exampleGoTime exampleVars "2018-01-01 00:00:00"
                             ltac:(discriminate) ltac:(vm_compute; congruence))
                          (mkStmtCtx []) (mkTime 1514764800 0)
                          (mkTime 1514764800 0) None eq_refl eq_refl)).
    vm_compute. reflexivity.
  - apply (proj1 (setSnapshotTS_datetime Time exampleParseTime exampleGoTime
                    exampleVars "yesterday"
                    ltac:(discriminate) ltac:(vm_compute; congruence))
                 (mkStmtCtx []) (mkTime 0 0) (mkError CodeForeign ["yesterday"])).
    reflexivity.
Defined.

Lemma setSnapshotTS_frame_witness :
  StmtCtx (fst (setSnapshotTS Time exampleParseTime exampleGoTime exampleVars "17")) =
    StmtCtx exampleVars \/
  exists t, exampleParseTime (StmtCtx exampleVars) "17" =
            (StmtCtx (fst (setSnapshotTS Time exampleParseTime exampleGoTime
                             exampleVars "17")), (t, None)).
Proof.
  apply (proj2 (proj2 (proj2 (setSnapshotTS_frame Time exampleParseTime
                                exampleGoTime exampleVars "17")))).
  reflexivity.
Defined.

(** ** Reading session variables *)

Lemma lowerByte_upperByte (c : ascii) : lowerByte (upperByte c) = lowerByte c.
Proof. destruct c as [[] [] [] [] [] [] [] []]; vm_compute; reflexivity. Qed.

Lemma isASCII_upperByte (c : ascii) :
  (byteOf (upperByte c) <? 128) = (byteOf c <? 128).
Proof. destruct c as [[] [] [] [] [] [] [] []]; vm_compute; reflexivity. Qed.

Lemma mapBytes_lower_upper (s : string) :
  mapBytes lowerByte (upperASCII s) = mapBytes lowerByte s.
Proof.
  induction s as [| c s IH]; [reflexivity |].
  cbn [upperASCII mapBytes]. fold (upperASCII s).
  rewrite lowerByte_upperByte, IH. reflexivity.
Qed.

Lemma isASCII_upperASCII (s : string) : isASCII (upperASCII s) = isASCII s.
Proof.
  induction s as [| c s IH]; [reflexivity |].
  cbn [upperASCII mapBytes isASCII]. fold (upperASCII s).
  rewrite isASCII_upperByte, IH. reflexivity.
Qed.

(** Two ASCII names that differ in casing only have the same lower-case
    form. *)
Lemma ToLower_casing (unicodeLower : string -> string) (k1 k2 : string) :
  isASCII k1 = true -> upperASCII k1 = upperASCII k2 ->
  ToLower unicodeLower k1 = ToLower unicodeLower k2.
Proof.
  intros H1 Hu. unfold ToLower.
  assert (H2 : isASCII k2 = true)
    by (rewrite <- isASCII_upperASCII, <- Hu, isASCII_upperASCII; exact H1).
  rewrite H1, H2, <- (mapBytes_lower_upper k1), <- (mapBytes_lower_upper k2), Hu.
  reflexivity.
Qed.

Section Reading.

Variable SysVars : gmap string SysVar.
Variable unicodeLower : string -> string.

(** The variables are read and written by name whatever the casing of
    the name: two ASCII names that differ in casing only give the same
    session read, the same global read and the same write. *)
Theorem names_are_case_insensitive
    (Datum : Type) (IsNull : Datum -> bool)
    (ToString : Datum -> string * option Error)
    (SetSystemVar : SessionVars -> string -> string -> SessionVars * option Error)
    (p : Process) (s : SessionVars) (k1 k2 : string) (value : Datum) :
  isASCII k1 = true -> upperASCII k1 = upperASCII k2 ->
  GetSessionSystemVar SysVars unicodeLower p s k1 =
    GetSessionSystemVar SysVars unicodeLower p s k2 /\
  GetGlobalSystemVar SysVars unicodeLower s k1 =
    GetGlobalSystemVar SysVars unicodeLower s k2 /\
  SetSessionSystemVar SysVars unicodeLower Datum IsNull ToString SetSystemVar
      s k1 value =
    SetSessionSystemVar SysVars unicodeLower Datum IsNull ToString SetSystemVar
      s k2 value.
Proof.
  intros H1 Hu.
  pose proof (ToLower_casing unicodeLower k1 k2 H1 Hu) as E.
  unfold GetSessionSystemVar, GetGlobalSystemVar, SetSessionSystemVar.
  rewrite E. auto.
Qed.

(** A session read that fails returns the empty string and leaves the
    session as it is; the read of a name that the catalog does not have
    fails with UnknownVariable for the lower-cased name. *)
Theorem GetSessionSystemVar_failure (p : Process) (s : SessionVars) (key : string) :
  let r := GetSessionSystemVar SysVars unicodeLower p s key in
  (snd (snd r) <> None -> fst r = s /\ fst (snd r) = "") /\
  (SysVars !! ToLower unicodeLower key = None ->
   r = (s, ("", Some (GenByArgs UnknownSystemVar [ToLower unicodeLower key])))).
Proof.
  intros r. subst r. unfold GetSessionSystemVar, GetSessionOnlySysVars, Trace.
  destruct (SysVars !! ToLower unicodeLower key) as [sysVar |];
    [| split; [intros _; split; reflexivity | reflexivity]].
  split; [| discriminate].
  destruct (Name sysVar =s? TiDBCurrentTS); [cbn; congruence |].
  destruct (Name sysVar =s? TiDBGeneralLog); [cbn; congruence |].
  destruct (Name sysVar =s? TiDBConfig).
  { destruct (configJSON p) as [j [e |]]; cbn; [auto | congruence]. }
  destruct (systems s !! _); [cbn; congruence |].
  destruct (Z.land _ _ =? 0); [cbn; congruence |].
  cbn [notNil orb].
  destruct (GetGlobalSysVar _ _) as [g [e |]]; cbn; [auto | congruence].
Qed.

(** A session read changes the session at most by caching the value
    read under the lower-cased name, when the overlay had no entry for
    it: no entry of the overlay is ever modified or deleted, and the
    warnings, the transaction context, the snapshot timestamp and the
    accessor of the global store are as they were. *)
Theorem GetSessionSystemVar_frame (p : Process) (s : SessionVars) (key : string) :
  let r := GetSessionSystemVar SysVars unicodeLower p s key in
  (forall k v, systems s !! k = Some v -> systems (fst r) !! k = Some v) /\
  (forall k, k <> ToLower unicodeLower key ->
     systems (fst r) !! k = systems s !! k) /\
  (fst r = s \/
   systems s !! ToLower unicodeLower key = None /\
   snd (snd r) = None /\
   systems (fst r) = <[ToLower unicodeLower key := fst (snd r)]> (systems s)) /\
  StmtCtx (fst r) = StmtCtx s /\ TxnCtx (fst r) = TxnCtx s /\
  SnapshotTS (fst r) = SnapshotTS s /\ globalVars (fst r) = globalVars s.
Proof.
  intros r. subst r. unfold GetSessionSystemVar, GetSessionOnlySysVars.
  set (lk := ToLower unicodeLower key).
  assert (Same : forall x : string * option Error,
            let r := (s, x) in
            (forall k v, systems s !! k = Some v -> systems (fst r) !! k = Some v) /\
            (forall k, k <> lk -> systems (fst r) !! k = systems s !! k) /\
            (fst r = s \/
             systems s !! lk = None /\ snd (snd r) = None /\
             systems (fst r) = <[lk := fst (snd r)]> (systems s)) /\
            StmtCtx (fst r) = StmtCtx s /\ TxnCtx (fst r) = TxnCtx s /\
            SnapshotTS (fst r) = SnapshotTS s /\ globalVars (fst r) = globalVars s).
  { intros x r. subst r. cbn [fst]. repeat split; auto. }
  destruct (SysVars !! lk) as [sysVar |]; [| apply Same].
  destruct (Name sysVar =s? TiDBCurrentTS); [apply Same |].
  destruct (Name sysVar =s? TiDBGeneralLog); [apply Same |].
  destruct (Name sysVar =s? TiDBConfig).
  { destruct (configJSON p) as [j [e |]]; apply Same. }
  destruct (systems s !! lk) eqn:Hov; [apply Same |].
  destruct (Z.land _ _ =? 0); [apply Same |].
  cbn [notNil orb].
  destruct (GetGlobalSysVar _ _) as [g [e |]]; [apply Same |].
  cbn [fst snd systems withSystems StmtCtx TxnCtx SnapshotTS globalVars].
  repeat split; auto.
  - intros k v Hk. rewrite lookup_insert_ne; [exact Hk | congruence].
  - intros k Hk. apply lookup_insert_ne. congruence.
Qed.

(** A session read that succeeded can be repeated: on the session it
    left, the same read gives the same value and changes nothing,
    whatever the global store holds by then.  A value read from the global
    store is cached, and later changes of the store are not seen. *)
Theorem GetSessionSystemVar_repeatable
    (p : Process) (s s' : SessionVars) (key v : string) (g : GlobalVarsAccessor) :
  GetSessionSystemVar SysVars unicodeLower p s key = (s', (v, None)) ->
  GetSessionSystemVar SysVars unicodeLower p (withGlobalVars s' g) key =
    (withGlobalVars s' g, (v, None)).
Proof.
  unfold GetSessionSystemVar, GetSessionOnlySysVars, Trace.
  set (lk := ToLower unicodeLower key).
  destruct (SysVars !! lk) as [sysVar |]; [| discriminate].
  destruct (Name sysVar =s? TiDBCurrentTS);
    [cbn [notNil orb]; intros H; injection H as <- <-; reflexivity |].
  destruct (Name sysVar =s? TiDBGeneralLog);
    [cbn [notNil orb]; intros H; injection H as <- <-; reflexivity |].
  destruct (Name sysVar =s? TiDBConfig).
  { destruct (configJSON p) as [j [e |]]; cbn [notNil orb]; [discriminate |].
    intros H; injection H as <- <-; reflexivity. }
  destruct (systems s !! lk) eqn:Hov.
  { cbn [notNil orb]. intros H; injection H as <- <-.
    cbn [systems withGlobalVars]. rewrite Hov. reflexivity. }
  destruct (Z.land _ _ =? 0) eqn:Hsc.
  { cbn [notNil orb]. intros H; injection H as <- <-.
    cbn [systems withGlobalVars]. rewrite Hov. reflexivity. }
  cbn [notNil orb].
  destruct (GetGlobalSysVar (globalVars s) lk) as [g0 [e |]]; [discriminate |].
  intros H; injection H as <- <-.
  cbn [systems withSystems withGlobalVars]. rewrite lookup_insert_eq. reflexivity.
Qed.

(** The virtual variables are computed on each read: whatever the
    overlay and the global store hold for them, the read gives the start
    timestamp of the transaction, the general-log flag of the process, or
    the rendering of the configuration, and the session is unchanged. *)
Theorem GetSessionSystemVar_virtual
    (p : Process) (s : SessionVars) (key : string) (sysVar : SysVar) :
  SysVars !! ToLower unicodeLower key = Some sysVar ->
  (Name sysVar = TiDBCurrentTS ->
   GetSessionSystemVar SysVars unicodeLower p s key =
     (s, (formatDecimal (StartTS (TxnCtx s)), None))) /\
  (Name sysVar = TiDBGeneralLog ->
   GetSessionSystemVar SysVars unicodeLower p s key =
     (s, (formatDecimal (ProcessGeneralLog p), None))) /\
  (Name sysVar = TiDBConfig ->
   GetSessionSystemVar SysVars unicodeLower p s key =
     match configJSON p with
     | (_, Some err) => (s, ("", Some err))
     | (j, None) => (s, (j, None))
     end).
Proof.
  intros Hl. unfold GetSessionSystemVar, GetSessionOnlySysVars. rewrite Hl.
  split; [| split]; intros ->; cbn; try reflexivity.
  destruct (configJSON p) as [j [e |]]; reflexivity.
Qed.

(** A constant of scope none never reaches the global store: a global
    read gives the default of the catalog; a session read of one that is
    not virtual gives the overlay entry if there is one, else the
    default. *)
Theorem scope_none_reads_default
    (p : Process) (s : SessionVars) (key : string) (sysVar : SysVar) :
  SysVars !! ToLower unicodeLower key = Some sysVar ->
  Scope sysVar = ScopeNone ->
  GetGlobalSystemVar SysVars unicodeLower s key = (Value sysVar, None) /\
  (isVirtual sysVar = false ->
   GetSessionSystemVar SysVars unicodeLower p s key =
     (s, (default (Value sysVar) (systems s !! ToLower unicodeLower key), None))).
Proof.
  intros Hl Hs. split.
  - unfold GetGlobalSystemVar, GetScopeNoneSystemVar. rewrite Hl, Hs. reflexivity.
  - intros Hv. unfold isVirtual, oneOf in Hv. cbn [existsb] in Hv.
    rewrite !orb_false_iff in Hv. destruct Hv as (V1 & V2 & V3 & _).
    unfold GetSessionSystemVar, GetSessionOnlySysVars.
    rewrite Hl, V1, V2, V3, Hs.
    destruct (systems s !! _); reflexivity.
Qed.

(** A global read does not look at the session overlay: for a name of
    the catalog whose scope is not none it is the read of the accessor,
    and the name that the accessor is asked for is the lower-cased one. *)
Theorem GetGlobalSystemVar_reads_store
    (s : SessionVars) (key : string) :
  (SysVars !! ToLower unicodeLower key = None ->
   GetGlobalSystemVar SysVars unicodeLower s key =
     ("", Some (GenByArgs UnknownSystemVar [ToLower unicodeLower key]))) /\
  (forall sysVar, SysVars !! ToLower unicodeLower key = Some sysVar ->
   Scope sysVar <> ScopeNone ->
   GetGlobalSystemVar SysVars unicodeLower s key =
     match GetGlobalSysVar (globalVars s) (ToLower unicodeLower key) with
     | (_, Some err) => ("", Some err)
     | (gVal, None) => (gVal, None)
     end).
Proof.
  unfold GetGlobalSystemVar, GetScopeNoneSystemVar. split.
  - intros ->. reflexivity.
  - intros sysVar -> Hs.
    destruct (Z.eqb_spec (Scope sysVar) ScopeNone); [contradiction |].
    cbn [notNil orb]. destruct (GetGlobalSysVar _ _) as [g [e |]]; reflexivity.
Qed.

End Reading.

Lemma names_are_case_insensitive_witness :
  GetSessionSystemVar exampleSysVars exampleUnicodeLower exampleProcess
      exampleVars "Max_Connections" =
  GetSessionSystemVar exampleSysVars exampleUnicodeLower exampleProcess
      exampleVars "max_connections".
Proof.
  apply (names_are_case_insensitive exampleSysVars exampleUnicodeLower
           exampleDatum exampleIsNull exampleToString exampleSetSystemVar
           exampleProcess exampleVars "Max_Connections" "max_connections"
           DatumNull eq_refl eq_refl).
Defined.

Lemma GetSessionSystemVar_failure_witness :
  GetSessionSystemVar exampleSysVars exampleUnicodeLower exampleProcess
      exampleVars "No_Such_Var" =
    (exampleVars, ("", Some (GenByArgs UnknownSystemVar ["no_such_var"]))).
Proof.
  apply (proj2 (GetSessionSystemVar_failure exampleSysVars exampleUnicodeLower
                  exampleProcess exampleVars "No_Such_Var")).
  vm_compute. reflexivity.
Defined.

Lemma GetSessionSystemVar_frame_witness :
  systems (fst (GetSessionSystemVar exampleSysVars exampleUnicodeLower
                  exampleProcess exampleVars MaxConnections))
    !! DefaultWeekFormat = Some "2".
Proof.
  apply (proj1 (GetSessionSystemVar_frame exampleSysVars exampleUnicodeLower
                  exampleProcess exampleVars MaxConnections)).
  vm_compute. reflexivity.
Defined.

Lemma GetSessionSystemVar_repeatable_witness :
  GetSessionSystemVar exampleSysVars exampleUnicodeLower exampleProcess
      exampleVars MaxConnections =
    (withSystems exampleVars (<[MaxConnections := "200"]> (systems exampleVars)),
     ("200", None)) /\
  GetSessionSystemVar exampleSysVars exampleUnicodeLower exampleProcess
      (withGlobalVars
         (withSystems exampleVars (<[MaxConnections := "200"]> (systems exampleVars)))
         (storeAccessor ∅))
      MaxConnections =
    (withGlobalVars
       (withSystems exampleVars (<[MaxConnections := "200"]> (systems exampleVars)))
       (storeAccessor ∅),
     ("200", None)).
Proof.
  assert (H : GetSessionSystemVar exampleSysVars exampleUnicodeLower
                exampleProcess exampleVars MaxConnections =
              (withSystems exampleVars
                 (<[MaxConnections := "200"]> (systems exampleVars)),
               ("200", None))) by reflexivity.
  split; [exact H |].
  apply (GetSessionSystemVar_repeatable exampleSysVars exampleUnicodeLower
           exampleProcess exampleVars _ MaxConnections "200" (storeAccessor ∅) H).
Defined.

Lemma GetSessionSystemVar_virtual_witness :
  GetSessionSystemVar exampleSysVars exampleUnicodeLower exampleProcess
      exampleVars TiDBCurrentTS = (exampleVars, ("5", None)).
Proof.
  apply (proj1 (GetSessionSystemVar_virtual exampleSysVars exampleUnicodeLower
                  exampleProcess exampleVars TiDBCurrentTS
                  (mkSysVar ScopeSession TiDBCurrentTS "0")
                  ltac:(vm_compute; reflexivity))).
  reflexivity.
Defined.

Lemma scope_none_reads_default_witness :
  GetGlobalSystemVar exampleSysVars exampleUnicodeLower exampleVars "PORT" =
    ("4000", None) /\
  GetSessionSystemVar exampleSysVars exampleUnicodeLower exampleProcess
      exampleVars "PORT" = (exampleVars, ("4000", None)).
Proof.
  pose proof (scope_none_reads_default exampleSysVars exampleUnicodeLower
                exampleProcess exampleVars "PORT" (mkSysVar ScopeNone "port" "4000")
                ltac:(vm_compute; reflexivity) eq_refl) as [Hg Hs].
  split; [exact Hg |].
  rewrite (Hs eq_refl). vm_compute. reflexivity.
Defined.

Lemma GetGlobalSystemVar_reads_store_witness :
  GetGlobalSystemVar exampleSysVars exampleUnicodeLower exampleVars
      "Default_Week_Format" = ("3", None).
Proof.
  rewrite (proj2 (GetGlobalSystemVar_reads_store exampleSysVars
                    exampleUnicodeLower exampleVars "Default_Week_Format")
                 (mkSysVar (Z.lor ScopeGlobal ScopeSession) DefaultWeekFormat "0")
                 ltac:(vm_compute; reflexivity)
                 ltac:(vm_compute; congruence)).
  vm_compute. reflexivity.
Defined.

(** ** The scope check, once more *)

(** The scope check passes exactly for a name of the catalog that is not
    session-only, on a global access, and for one that is neither
    global-only nor of scope none, on a session access.  The name is
    looked up as it is written: under a catalog of lower-case names a name
    with an upper-case letter is unknown to the check. *)
Theorem ValidateGetSystemVar_passes_iff
    (SysVars : gmap string SysVar) (unicodeLower : string -> string)
    (name : string) (isGlobal : bool) :
  (ValidateGetSystemVar SysVars name isGlobal = None <->
   exists sysVar, SysVars !! name = Some sysVar /\
     if isGlobal then Scope sysVar <> ScopeSession
     else Scope sysVar <> ScopeGlobal /\ Scope sysVar <> ScopeNone) /\
  ((forall k, is_Some (SysVars !! k) -> ToLower unicodeLower k = k) ->
   ToLower unicodeLower name <> name ->
   ValidateGetSystemVar SysVars name isGlobal =
     Some (GenByArgs UnknownSystemVar [name])).
Proof.
  unfold ValidateGetSystemVar.
  change ScopeGlobal with 1. change ScopeNone with 0. change ScopeSession with 2.
  split.
  - destruct (SysVars !! name) as [sysVar |].
    + destruct (Z.eqb_spec (Scope sysVar) 1), (Z.eqb_spec (Scope sysVar) 0),
        (Z.eqb_spec (Scope sysVar) 2), isGlobal; cbn [orb negb];
        (split;
         [ intros H; first [discriminate H | exists sysVar; split; [reflexivity | lia]]
         | intros (sv & Hsv & Hc); injection Hsv as <-;
           first [reflexivity | exfalso; lia] ]).
    + split; [discriminate | intros (sv & Hsv & _); discriminate].
  - intros Hkeys Hne.
    destruct (SysVars !! name) as [sysVar |] eqn:Hl; [| reflexivity].
    exfalso. apply Hne. apply Hkeys. rewrite Hl. eauto.
Qed.

Lemma ValidateGetSystemVar_passes_iff_witness :
  ValidateGetSystemVar exampleSysVars "Max_Connections" true =
    Some (GenByArgs UnknownSystemVar ["Max_Connections"]).
Proof.
  apply (proj2 (ValidateGetSystemVar_passes_iff exampleSysVars
                  exampleUnicodeLower "Max_Connections" true)).
  - assert (F : map_Forall (fun k _ => ToLower exampleUnicodeLower k = k)
                  exampleSysVars)
      by (apply (bool_decide_unpack (map_Forall _ exampleSysVars));
          vm_compute; exact I).
    intros k [sv Hk]. exact (F k sv Hk).
  - vm_compute. congruence.
Defined.

(** ** Writing session variables *)

Lemma lowerByte_idempotent (c : ascii) : lowerByte (lowerByte c) = lowerByte c.
Proof. destruct c as [[] [] [] [] [] [] [] []]; vm_compute; reflexivity. Qed.

Lemma isASCII_lowerByte (c : ascii) :
  (byteOf (lowerByte c) <? 128) = (byteOf c <? 128).
Proof. destruct c as [[] [] [] [] [] [] [] []]; vm_compute; reflexivity. Qed.

(** Lower-casing an ASCII name twice is lower-casing it once. *)
Lemma ToLower_idempotent (unicodeLower : string -> string) (s : string) :
  isASCII s = true ->
  ToLower unicodeLower (ToLower unicodeLower s) = ToLower unicodeLower s.
Proof.
  intros H. unfold ToLower. rewrite H.
  assert (H' : isASCII (mapBytes lowerByte s) = true).
  { rewrite <- H. clear H. induction s as [| c s IH]; [reflexivity |].
    cbn [mapBytes isASCII]. rewrite isASCII_lowerByte, IH. reflexivity. }
  rewrite H'. clear H H'. induction s as [| c s IH]; [reflexivity |].
  cbn [mapBytes]. rewrite lowerByte_idempotent, IH. reflexivity.
Qed.

Section Writing.

Variable SysVars : gmap string SysVar.
Variable unicodeLower : string -> string.
Variable Datum : Type.
Variable IsNull : Datum -> bool.
Variable ToString : Datum -> string * option Error.
Variable SetSystemVar : SessionVars -> string -> string -> SessionVars * option Error.

(** A write that passes the validation hands [SetSystemVar] the
    lower-cased name and the value that the validation returned, in a
    session whose overlay is still untouched; that value (the word DEFAULT
    apart) is one that the validation accepts as it is. *)
Theorem SetSessionSystemVar_hands_over_validated
    (vars vars1 : SessionVars) (name : string) (value : Datum)
    (sysVar : SysVar) (sVal ret : string) :
  SysVars !! ToLower unicodeLower name = Some sysVar ->
  IsNull value = false ->
  ToString value = (sVal, None) ->
  upperASCII sVal <> "DEFAULT" ->
  ValidateSetSystemVar SysVars unicodeLower vars (ToLower unicodeLower name) sVal =
    (vars1, (ret, None)) ->
  SetSessionSystemVar SysVars unicodeLower Datum IsNull ToString SetSystemVar
      vars name value =
    SetSystemVar vars1 (ToLower unicodeLower name) ret /\
  systems vars1 = systems vars /\
  forall vars2,
    ValidateSetSystemVar SysVars unicodeLower vars2 (ToLower unicodeLower name) ret =
      (vars2, (ret, None)).
Proof.
  intros Hl Hn Hc Hd Hv. split; [| split].
  - unfold SetSessionSystemVar. rewrite Hl, Hn, Hc, Hv. reflexivity.
  - pose proof (Validate_outcome SysVars unicodeLower vars
                  (ToLower unicodeLower name) sVal) as O.
    rewrite Hv in O. cbn in O. destruct O as [-> | ->]; reflexivity.
  - intros vars2. eapply Validate_fixed_point; [| exact Hv].
    apply (EqualFold_not_casing "DEFAULT" sVal eq_refl). exact Hd.
Qed.

(** The word DEFAULT, in any casing, writes the default of the catalog:
    whatever rule the variable has, a read-only counter included,
    [SetSystemVar] is handed the default value of the descriptor, which
    no rule has looked at. *)
Theorem SetSessionSystemVar_DEFAULT
    (vars : SessionVars) (name : string) (value : Datum)
    (sysVar : SysVar) (sVal : string) :
  isASCII name = true ->
  SysVars !! ToLower unicodeLower name = Some sysVar ->
  IsNull value = false ->
  ToString value = (sVal, None) ->
  upperASCII sVal = "DEFAULT" ->
  SetSessionSystemVar SysVars unicodeLower Datum IsNull ToString SetSystemVar
      vars name value =
    SetSystemVar vars (ToLower unicodeLower name) (Value sysVar).
Proof.
  intros Ha Hl Hn Hc Hd.
  apply (EqualFold_casing "DEFAULT" sVal eq_refl) in Hd.
  unfold SetSessionSystemVar. rewrite Hl, Hn, Hc.
  rewrite (Validate_DEFAULT _ _ _ _ _ Hd).
  rewrite (ToLower_idempotent unicodeLower name Ha), Hl. reflexivity.
Qed.

End Writing.

Lemma SetSessionSystemVar_hands_over_validated_witness :
  SetSessionSystemVar exampleSysVars exampleUnicodeLower exampleDatum
      exampleIsNull exampleToString exampleSetSystemVar
      exampleVars "Default_Week_Format" (DatumString "9") =
    exampleSetSystemVar (warned exampleVars DefaultWeekFormat "9")
      DefaultWeekFormat "7".
Proof.
  apply (SetSessionSystemVar_hands_over_validated exampleSysVars
           exampleUnicodeLower exampleDatum exampleIsNull exampleToString
           exampleSetSystemVar exampleVars
           (warned exampleVars DefaultWeekFormat "9")
           "Default_Week_Format" (DatumString "9")
           (mkSysVar (Z.lor ScopeGlobal ScopeSession) DefaultWeekFormat "0")
           "9" "7");
    try (vm_compute; reflexivity).
  vm_compute. congruence.
Defined.

Lemma SetSessionSystemVar_DEFAULT_witness :
  SetSessionSystemVar exampleSysVars exampleUnicodeLower exampleDatum
      exampleIsNull exampleToString exampleSetSystemVar
      exampleVars "Warning_Count" (DatumString "Default") =
    exampleSetSystemVar exampleVars WarningCount "0".
Proof.
  apply (SetSessionSystemVar_DEFAULT exampleSysVars exampleUnicodeLower
           exampleDatum exampleIsNull exampleToString exampleSetSystemVar
           exampleVars "Warning_Count" (DatumString "Default")
           (mkSysVar ScopeSession WarningCount "0") "Default");
    vm_compute; reflexivity.
Defined.

(** ** A snapshot at the start of the transaction *)

(** The value that a read of the current timestamp gives is one that
    [setSnapshotTS] takes as a number: set as the snapshot, it makes the
    snapshot timestamp the start timestamp of the transaction. *)
Theorem snapshot_of_current_ts
    (SysVars : gmap string SysVar) (unicodeLower : string -> string)
    (MysqlTime : Type)
    (ParseTime : StatementContext -> string ->
                 StatementContext * (MysqlTime * option Error))
    (GoTime : MysqlTime -> Time * option Error)
    (p : Process) (s : SessionVars) (key : string) (sysVar : SysVar) :
  SysVars !! ToLower unicodeLower key = Some sysVar ->
  Name sysVar = TiDBCurrentTS ->
  0 <= StartTS (TxnCtx s) < 2 ^ 64 ->
  let r := GetSessionSystemVar SysVars unicodeLower p s key in
  snd (snd r) = None /\
  setSnapshotTS MysqlTime ParseTime GoTime (fst r) (fst (snd r)) =
    (withSnapshotTS s (StartTS (TxnCtx s)), None).
Proof.
  intros Hl Hn Hts r. subst r.
  unfold GetSessionSystemVar, GetSessionOnlySysVars. rewrite Hl, Hn.
  cbn [String.eqb fst snd notNil orb Trace]. 
  change (TiDBCurrentTS =s? TiDBCurrentTS) with true. cbv iota.
  cbn [notNil orb fst snd]. split; [reflexivity |].
  pose proof (ParseUint_formatDecimal (StartTS (TxnCtx s)) ltac:(lia)) as HP.
  unfold setSnapshotTS.
  destruct (formatDecimal (StartTS (TxnCtx s))) as [| c rest] eqn:Hf;
    [discriminate HP |].
  cbn [String.eqb]. rewrite HP. reflexivity.
Qed.

Lemma snapshot_of_current_ts_witness :
  setSnapshotTS Time exampleParseTime exampleGoTime exampleVars "5" =
    (withSnapshotTS exampleVars 5, None).
Proof.
  apply (proj2 (snapshot_of_current_ts exampleSysVars exampleUnicodeLower
                  Time exampleParseTime exampleGoTime exampleProcess
                  exampleVars TiDBCurrentTS
                  (mkSysVar ScopeSession TiDBCurrentTS "0")
                  ltac:(vm_compute; reflexivity) eq_refl
                  ltac:(vm_compute; split; congruence))).
Defined.
